(** * TaskManagementSystem.py: the task store, its manager and the priority rules

    A shallow embedding of [Database], [TaskManager] and [PriorityPredictor]
    of [TaskManagementSystem.py], and of what [Application.search_tasks] and
    [Application.view_tasks] select for display.

    - The three SQLite tables are lists of rows in rowid order, together with
      the AUTOINCREMENT counter of each table.  The state is the contents as
      seen through the single connection [self.db]; [commit] does not change
      that view, so it does not appear.
    - A column holds a [value]: NULL, an integer, a real or a text, as the
      [sqlite3] module hands them over.  [add_task] and [update_task] take
      the values as SQLite receives them and store them as they are.  That
      is what SQLite does with a value of the storage class of its column
      ([keeps]); the conversions that column affinity applies to other
      values are not modelled, and the statements that read a written value
      back are about the values a column keeps.  A Python [int] becomes such
      a value through [bind_int], which raises [OverflowError] outside the
      signed 64-bit range.
    - Reals are rationals: floating-point rounding is not modelled.  An
      average is the exact quotient, and [round2] rounds it exactly, where
      Python rounds the nearest binary float; the two can differ in the
      last digit when the average lies half-way between two hundredths.
    - A [str] is the sequence of its characters, each with a code point
      below 256; other characters are not modelled.  The BINARY collation
      orders such texts by code point.
    - The clock is an input: [CURRENT_TIMESTAMP] and
      [datetime.now().isoformat()] are texts passed to the operation that
      reads them.
    - [datetime.fromisoformat] belongs to the Python library; the operations
      take it as a parameter returning a [datetime], naive or with a UTC
      offset, [None] where the library raises [ValueError].
      [fromisoformat_basic] is an instance for the usual layouts.
    - An operation returns its outcome (a result or the exception raised)
      and the state it leaves behind. *)

From Stdlib Require Import ZArith QArith Qabs Qround Lqa String Ascii List Sorted
  Permutation Lia.
From stdpp Require Import base option list gmap strings.

Local Open Scope Z_scope.

(** ** Values and their SQLite semantics *)

Inductive value : Type :=
| VNull
| VInt (z : Z)
| VReal (q : Q)
| VText (s : string).

(** Python truthiness of a fetched column: [None], [0], [0.0] and [''] are
    false. *)
Definition truthy (v : value) : bool :=
  match v with
  | VNull => false
  | VInt z => negb (z =? 0)
  | VReal q => negb (Qeq_bool q 0)
  | VText s => negb (s =? "")%string
  end.

(** Storage classes in SQLite's sort order: NULL, then numbers, then text. *)
Definition class_rank (v : value) : Z :=
  match v with
  | VNull => 0
  | VInt _ | VReal _ => 1
  | VText _ => 2
  end.

Definition num_of (v : value) : Q :=
  match v with
  | VInt z => inject_Z z
  | VReal q => q
  | _ => 0%Q
  end.

(** The comparison that [ORDER BY] uses: NULL first, numbers by numeric
    value, texts byte by byte (the BINARY collation). *)
Definition value_compare (a b : value) : comparison :=
  match a, b with
  | VText s, VText t => String.compare s t
  | _, _ =>
      match class_rank a ?= class_rank b with
      | Eq => if class_rank a =? 1 then (num_of a ?= num_of b)%Q else Eq
      | c => c
      end
  end.

Definition value_leb (a b : value) : bool :=
  match value_compare a b with
  | Gt => false
  | _ => true
  end.

(** Three-valued logic of a [WHERE] clause: [None] is SQL's unknown. *)
Definition sql_cmp (a b : value) : option comparison :=
  match a, b with
  | VNull, _ | _, VNull => None
  | _, _ => Some (value_compare a b)
  end.

Definition sql_eq (a b : value) : option bool :=
  c ← sql_cmp a b; Some (match c with Eq => true | _ => false end).

Definition sql_ne (a b : value) : option bool :=
  c ← sql_cmp a b; Some (match c with Eq => false | _ => true end).

Definition sql_lt (a b : value) : option bool :=
  c ← sql_cmp a b; Some (match c with Lt => true | _ => false end).

Definition sql_and (a b : option bool) : option bool :=
  match a, b with
  | Some false, _ | _, Some false => Some false
  | Some true, Some true => Some true
  | _, _ => None
  end.

(** A row is selected when the condition is true (not false, not unknown). *)
Definition sql_true (c : option bool) : bool :=
  match c with
  | Some true => true
  | _ => false
  end.

(** ** Tables *)

Record task_row : Type := {
  t_id : Z;
  t_title : value;
  t_description : value;
  t_category : value;
  t_priority : value;
  t_status : value;
  t_deadline : value;
  t_created_at : value;
  t_completed_at : value;
  t_estimated_hours : value;
  t_actual_hours : value
}.

Record history_row : Type := {
  h_id : Z;
  h_task_id : Z;
  h_category : value;
  h_estimated_hours : value;
  h_actual_hours : value;
  h_days_to_deadline : option Z;
  h_completion_time_hours : Q
}.

Record tag_row : Type := {
  g_id : Z;
  g_task_id : Z;
  g_tag : string
}.

Record database : Type := {
  tasks : list task_row;
  task_history : list history_row;
  tags : list tag_row;
  seq_tasks : Z;
  seq_history : Z;
  seq_tags : Z
}.

(** [init_db] on a fresh file. *)
Definition init_db : database :=
  {| tasks := []; task_history := []; tags := [];
     seq_tasks := 0; seq_history := 0; seq_tags := 0 |}.

Definition with_tasks (l : list task_row) (db : database) : database :=
  {| tasks := l; task_history := task_history db; tags := tags db;
     seq_tasks := seq_tasks db; seq_history := seq_history db;
     seq_tags := seq_tags db |}.

(** [INSERT INTO tasks]: the new rowid is the counter plus one. *)
Definition insert_task (r : task_row) (db : database) : database :=
  {| tasks := tasks db ++ [r]; task_history := task_history db;
     tags := tags db;
     seq_tasks := t_id r; seq_history := seq_history db;
     seq_tags := seq_tags db |}.

Definition insert_tag (task_id : Z) (tag : string) (db : database) : database :=
  {| tasks := tasks db; task_history := task_history db;
     tags := tags db ++ [{| g_id := seq_tags db + 1; g_task_id := task_id;
                            g_tag := tag |}];
     seq_tasks := seq_tasks db; seq_history := seq_history db;
     seq_tags := seq_tags db + 1 |}.

Definition insert_history (task_id : Z) (cat est act : value)
    (days : option Z) (hours : Q) (db : database) : database :=
  {| tasks := tasks db;
     task_history := task_history db ++
       [{| h_id := seq_history db + 1; h_task_id := task_id;
           h_category := cat; h_estimated_hours := est;
           h_actual_hours := act; h_days_to_deadline := days;
           h_completion_time_hours := hours |}];
     tags := tags db;
     seq_tasks := seq_tasks db; seq_history := seq_history db + 1;
     seq_tags := seq_tags db |}.

(** ** Outcomes *)

Inductive exn : Type :=
| IntegrityError
| ValueError
| TypeError
| OverflowError
| KeyError (key : string).

Inductive outcome (A : Type) : Type :=
| Ok (a : A)
| Raise (e : exn).
Arguments Ok {A} a.
Arguments Raise {A} e.

(** ** [str.strip] *)

(** The white space of [str.isspace] among the characters below 256: tab
    to carriage return, the four separators, the space, NEL and the
    no-break space. *)
Definition is_space (c : ascii) : bool :=
  let n := nat_of_ascii c in
  ((9 <=? n)%nat && (n <=? 13)%nat) || ((28 <=? n)%nat && (n <=? 32)%nat)
  || (n =? 133)%nat || (n =? 160)%nat.

Fixpoint lstrip_list (l : list ascii) : list ascii :=
  match l with
  | c :: l' => if is_space c then lstrip_list l' else l
  | [] => []
  end.

Definition strip_list (l : list ascii) : list ascii :=
  rev (lstrip_list (rev (lstrip_list l))).

Definition strip (s : string) : string :=
  string_of_list_ascii (strip_list (list_ascii_of_string s)).

(** ** TaskManager.add_task *)

(** [now] is the text [CURRENT_TIMESTAMP] yields when the row is inserted;
    [tag_list] is the argument [tags], [None] for Python's [None].  The
    [title] column is [NOT NULL]. *)
Definition add_task (now : string)
    (title description category priority deadline estimated_hours : value)
    (tag_list : option (list string)) (db : database)
  : outcome Z * database :=
  match title with
  | VNull => (Raise IntegrityError, db)
  | _ =>
      let task_id := seq_tasks db + 1 in
      let db1 :=
        insert_task
          {| t_id := task_id; t_title := title;
             t_description := description; t_category := category;
             t_priority := priority; t_status := VText "pending";
             t_deadline := deadline; t_created_at := VText now;
             t_completed_at := VNull;
             t_estimated_hours := estimated_hours;
             t_actual_hours := VNull |} db in
      let db2 :=
        match tag_list with
        | Some l => fold_left (fun d tag => insert_tag task_id (strip tag) d) l db1
        | None => db1
        end in
      (Ok task_id, db2)
  end.

(** The defaults of the signature: [description=""], [category="general"],
    [priority=3], [deadline=None], [estimated_hours=0], [tags=None]. *)
Definition add_task_default (now : string) (title : value) (db : database)
  : outcome Z * database :=
  add_task now title (VText "") (VText "general") (VInt 3) VNull (VInt 0)
    None db.

(** ** TaskManager.get_tasks *)

(** The dict built for a row: the eleven columns under their names, and the
    [tags] entry.  It is also the shape of an object of an exported file. *)
Record task_dict : Type := {
  entries : gmap string value;
  tags_entry : option (list string)
}.

(** [SELECT tag FROM tags WHERE task_id = ?] *)
Definition tags_of (task_id : Z) (db : database) : list string :=
  map g_tag (List.filter (fun g => g_task_id g =? task_id) (tags db)).

Definition row_entries (row : task_row) : gmap string value :=
  list_to_map
    [("id", VInt (t_id row)); ("title", t_title row);
     ("description", t_description row); ("category", t_category row);
     ("priority", t_priority row); ("status", t_status row);
     ("deadline", t_deadline row); ("created_at", t_created_at row);
     ("completed_at", t_completed_at row);
     ("estimated_hours", t_estimated_hours row);
     ("actual_hours", t_actual_hours row)].

Definition row_dict (db : database) (row : task_row) : task_dict :=
  {| entries := row_entries row;
     tags_entry := Some (tags_of (t_id row) db) |}.

(** [ORDER BY priority ASC, deadline ASC] *)
Definition order_leb (a b : task_row) : bool :=
  match value_compare (t_priority a) (t_priority b) with
  | Lt => true
  | Gt => false
  | Eq => value_leb (t_deadline a) (t_deadline b)
  end.

Fixpoint insert_row (x : task_row) (l : list task_row) : list task_row :=
  match l with
  | [] => [x]
  | y :: l' => if order_leb x y then x :: l else y :: insert_row x l'
  end.

(** Rows with equal keys keep their rowid order. *)
Fixpoint order_by (l : list task_row) : list task_row :=
  match l with
  | [] => []
  | x :: l' => insert_row x (order_by l')
  end.

(** One optional [AND column = ?]: Python's [if status:] skips [None] and
    the empty string. *)
Definition filter_clause (param : option string) (col : value) : bool :=
  match param with
  | None => true
  | Some s => if (s =? "")%string then true
              else sql_true (sql_eq col (VText s))
  end.

Definition select_tasks (status category : option string) (db : database)
  : list task_row :=
  order_by
    (List.filter
       (fun r => filter_clause status (t_status r)
                 && filter_clause category (t_category r))
       (tasks db)).

Definition get_tasks (status category : option string) (db : database)
  : list task_dict :=
  map (row_dict db) (select_tasks status category db).

(** ** TaskManager.update_task *)

Definition allowed_fields : list string :=
  ["title"; "description"; "category"; "priority"; "status"; "deadline";
   "estimated_hours"; "actual_hours"].

Definition allowed (field : string) : bool :=
  existsb (String.eqb field) allowed_fields.

(** [SET field = ?] on one row. *)
Definition set_column (field : string) (v : value) (r : task_row) : task_row :=
  let pick (name : string) (old : value) :=
    if (field =? name)%string then v else old in
  {| t_id := t_id r;
     t_title := pick "title" (t_title r);
     t_description := pick "description" (t_description r);
     t_category := pick "category" (t_category r);
     t_priority := pick "priority" (t_priority r);
     t_status := pick "status" (t_status r);
     t_deadline := pick "deadline" (t_deadline r);
     t_created_at := t_created_at r;
     t_completed_at := t_completed_at r;
     t_estimated_hours := pick "estimated_hours" (t_estimated_hours r);
     t_actual_hours := pick "actual_hours" (t_actual_hours r) |}.

Definition apply_updates (updates : list (string * value)) (r : task_row)
  : task_row :=
  fold_left (fun r kv => set_column kv.1 kv.2 r) updates r.

Definition is_null (v : value) : bool :=
  match v with
  | VNull => true
  | _ => false
  end.

(** [kwargs] in the order of the call.  A row that would get a NULL title
    aborts the statement. *)
Definition update_task (task_id : Z) (kwargs : list (string * value))
    (db : database) : outcome unit * database :=
  let updates := List.filter (fun kv => allowed kv.1) kwargs in
  match updates with
  | [] => (Ok tt, db)
  | _ :: _ =>
      if existsb
           (fun r => (t_id r =? task_id)
                     && is_null (t_title (apply_updates updates r)))
           (tasks db)
      then (Raise IntegrityError, db)
      else
        (Ok tt,
         with_tasks
           (map (fun r => if t_id r =? task_id then apply_updates updates r
                          else r)
                (tasks db))
           db)
  end.

(** ** Python integers as parameters

    [sqlite3] hands a Python [int] to SQLite as an INTEGER, a signed 64-bit
    number, and raises [OverflowError] for one that does not fit, before
    the statement runs. *)
Definition int64 (z : Z) : bool := (- 2 ^ 63 <=? z) && (z <? 2 ^ 63).




(** ** TaskManager.delete_task *)

Definition delete_task (task_id : Z) (db : database) : database :=
  {| tasks := List.filter (fun r => negb (t_id r =? task_id)) (tasks db);
     task_history := task_history db;
     tags := List.filter (fun g => negb (g_task_id g =? task_id)) (tags db);
     seq_tasks := seq_tasks db; seq_history := seq_history db;
     seq_tags := seq_tags db |}.

(** ** datetime and timedelta *)

(** A [datetime] is naive, the number of microseconds from the epoch to
    its wall-clock reading, or aware, the number of microseconds from the
    epoch to the instant in UTC.  A [timedelta] is a number of
    microseconds. *)
Inductive datetime : Type :=
| Naive (us : Z)
| Aware (us : Z).

#[global] Instance outcome_ret : MRet outcome := fun _ a => Ok a.

#[global] Instance outcome_bind : MBind outcome := fun _ _ f o =>
  match o with
  | Ok a => f a
  | Raise e => Raise e
  end.

(** [a - b]: a [TypeError] when one of the two is naive and the other
    aware. *)
Definition datetime_sub (a b : datetime) : outcome Z :=
  match a, b with
  | Naive x, Naive y | Aware x, Aware y => Ok (x - y)
  | _, _ => Raise TypeError
  end.

Definition timedelta_days (td : Z) : Z := td `div` 86400000000.

Definition total_seconds (td : Z) : Q := td # 1000000.

Section TaskManager.

(** [datetime.fromisoformat] on a [str]; [None] when it raises. *)
Variable fromisoformat : string -> option datetime.

(** [datetime.fromisoformat] on a fetched column: a [TypeError] for what
    is not a [str]. *)
Definition parse_column (v : value) : outcome datetime :=
  match v with
  | VText s =>
      match fromisoformat s with
      | Some d => Ok d
      | None => Raise ValueError
      end
  | _ => Raise TypeError
  end.

(** The two computed columns of the history row of [task], in hours and in
    days, or the exception that parsing or subtracting raises. *)
Definition history_times (completed_at : string) (task : task_row)
  : outcome (Q * option Z) :=
  created ← parse_column (t_created_at task);
  completed ← parse_column (VText completed_at);
  elapsed ← datetime_sub completed created;
  let completion_time := (total_seconds elapsed / 3600)%Q in
  days_to_deadline ←
    (if truthy (t_deadline task) then
       deadline ← parse_column (t_deadline task);
       left ← datetime_sub deadline created;
       Ok (Some (timedelta_days left))
     else Ok None);
  Ok (completion_time, days_to_deadline).

(** [UPDATE tasks SET status = 'completed', completed_at = ?,
    actual_hours = ? WHERE id = ?] on one row. *)
Definition mark_completed (completed_at : string) (actual_hours : value)
    (r : task_row) : task_row :=
  {| t_id := t_id r; t_title := t_title r;
     t_description := t_description r; t_category := t_category r;
     t_priority := t_priority r; t_status := VText "completed";
     t_deadline := t_deadline r; t_created_at := t_created_at r;
     t_completed_at := VText completed_at;
     t_estimated_hours := t_estimated_hours r;
     t_actual_hours := actual_hours |}.

(** ** TaskManager.complete_task

    [now] is [datetime.now().isoformat()]; [actual_hours] is [VNull] for
    [None].  The row is updated before the timestamps are parsed, and the
    history row is inserted after everything that can raise. *)
Definition complete_task (now : string) (task_id : Z) (actual_hours : value)
    (db : database) : outcome unit * database :=
  match List.find (fun r => t_id r =? task_id) (tasks db) with
  | None => (Ok tt, db)
  | Some task =>
      let completed_at := now in
      let db1 :=
        with_tasks
          (map (fun r => if t_id r =? task_id
                         then mark_completed completed_at actual_hours r
                         else r)
               (tasks db))
          db in
      match history_times completed_at task with
      | Raise e => (Raise e, db1)
      | Ok (completion_time, days_to_deadline) =>
          (Ok tt,
           insert_history task_id (t_category task)
             (t_estimated_hours task) actual_hours days_to_deadline
             completion_time db1)
      end
  end.

End TaskManager.

(** ** TaskManager.get_statistics *)

(** [SELECT col, COUNT( * ) ... GROUP BY col]: values that compare equal
    share a group (NULLs together). *)
Definition same_group (a b : value) : bool :=
  match value_compare a b with
  | Eq => true
  | _ => false
  end.

Fixpoint count_into (k : value) (groups : list (value * nat))
  : list (value * nat) :=
  match groups with
  | [] => [(k, 1%nat)]
  | (k', n) :: rest =>
      if same_group k k' then (k', S n) :: rest
      else (k', n) :: count_into k rest
  end.

Definition group_count (col : task_row -> value) (rows : list task_row)
  : list (value * nat) :=
  fold_left (fun groups r => count_into (col r) groups) rows [].

Definition Qsum (l : list Q) : Q := fold_right Qplus 0%Q l.

(** [AVG]: NULL over no rows. *)
Definition sql_avg (l : list Q) : option Q :=
  match l with
  | [] => None
  | _ :: _ => Some (Qsum l / inject_Z (Z.of_nat (length l)))%Q
  end.

(** Rounding to the nearest integer, ties to even. *)
Definition round_half_even (q : Q) : Z :=
  let f := Qfloor q in
  match (q - inject_Z f ?= 1 # 2)%Q with
  | Lt => f
  | Gt => f + 1
  | Eq => if Z.even f then f else f + 1
  end.

(** [round(x, 2)] on the exact value: the nearest number of hundredths,
    the even one of the two when [x] lies half-way between them. *)
Definition round2 (q : Q) : Q := round_half_even (q * 100) # 100.

Record statistics : Type := {
  by_status : list (value * nat);
  by_category : list (value * nat);
  avg_completion_hours : Q;
  overdue : nat
}.

(** [WHERE deadline < ? AND status != 'completed'] *)
Definition is_overdue (today : string) (r : task_row) : bool :=
  sql_true
    (sql_and (sql_lt (t_deadline r) (VText today))
             (sql_ne (t_status r) (VText "completed"))).

(** [today] is [datetime.now().isoformat()]. *)
Definition get_statistics (today : string) (db : database) : statistics :=
  let avg_completion :=
    sql_avg (map h_completion_time_hours (task_history db)) in
  {| by_status := group_count t_status (tasks db);
     by_category := group_count t_category (tasks db);
     avg_completion_hours :=
       match avg_completion with
       | Some avg => if Qeq_bool avg 0 then 0%Q else round2 avg
       | None => 0%Q
       end;
     overdue := length (List.filter (is_overdue today) (tasks db)) |}.

(** ** TaskManager.export_tasks and import_tasks *)

(** What [export_tasks] leaves in the file.  [json.dump] followed by
    [json.load] gives back the list of dicts, so a JSON file is that list;
    a CSV file is its header and its rows. *)
Inductive file : Type :=
| JsonFile (doc : list task_dict)
| CsvFile (header : list string) (rows : list task_dict).

Definition dict_keys : list string :=
  ["id"; "title"; "description"; "category"; "priority"; "status";
   "deadline"; "created_at"; "completed_at"; "estimated_hours";
   "actual_hours"; "tags"].

(** [None]: no file is written for another format. *)
Definition export_tasks (format : string) (db : database) : option file :=
  let tasks := get_tasks None None db in
  if (format =? "json")%string then Some (JsonFile tasks)
  else if (format =? "csv")%string then
    Some (match tasks with
          | [] => CsvFile [] []
          | _ :: _ => CsvFile dict_keys tasks
          end)
  else None.

(** The loop of [import_tasks]; [clock k] is [CURRENT_TIMESTAMP] at the
    insertion of the task of index [k]. *)
Fixpoint import_loop (clock : nat -> string) (k : nat) (doc : list task_dict)
    (db : database) : outcome unit * database :=
  match doc with
  | [] => (Ok tt, db)
  | task :: rest =>
      let tag_list := default [] (tags_entry task) in
      let task :=
        delete "completed_at" (delete "created_at" (delete "id" (entries task))) in
      match task !! "title" with
      | None => (Raise (KeyError "title"), db)
      | Some title =>
          match
            add_task (clock k) title
              (default (VText "") (task !! "description"))
              (default (VText "general") (task !! "category"))
              (default (VInt 3) (task !! "priority"))
              (default VNull (task !! "deadline"))
              (default (VInt 0) (task !! "estimated_hours"))
              (Some tag_list) db
          with
          | (Ok _, db') => import_loop clock (S k) rest db'
          | (Raise e, db') => (Raise e, db')
          end
      end
  end.

(** [json.load] raises on a file that is not JSON. *)
Definition import_tasks (clock : nat -> string) (f : file) (db : database)
  : outcome unit * database :=
  match f with
  | JsonFile doc => import_loop clock 0 doc db
  | CsvFile _ _ => (Raise ValueError, db)
  end.

(** ** PriorityPredictor *)

Definition Qgtb (a b : Q) : bool := negb (Qle_bool a b).

(** [deadline_days and deadline_days <= bound] *)
Definition within (deadline_days : option Z) (bound : Z) : bool :=
  match deadline_days with
  | Some d => negb (d =? 0) && (d <=? bound)
  | None => false
  end.

Definition _heuristic_priority (estimated_hours : Q)
    (deadline_days : option Z) : Z :=
  if within deadline_days 3 then 1
  else if within deadline_days 7 then 2
  else if Qgtb estimated_hours 15 then 2
  else if Qgtb estimated_hours 5 then 3
  else 4.

(** One round of the loop over the history: the two running scores, or the
    [TypeError] of subtracting a number from a text. *)
Definition score_step (estimated_hours : Q) (deadline_days : option Z)
    (scores : Q * Q) (h : history_row) : outcome (Q * Q) :=
  let '(complexity_score, urgency_score) := scores in
  let hist_est := h_estimated_hours h in
  let complexity :=
    if truthy hist_est && negb (Qeq_bool estimated_hours 0) then
      match hist_est with
      | VText _ => Raise TypeError
      | _ => Ok (complexity_score + Qabs (num_of hist_est - estimated_hours))%Q
      end
    else Ok complexity_score in
  match complexity with
  | Raise e => Raise e
  | Ok c =>
      match h_days_to_deadline h, deadline_days with
      | Some hd, Some dd =>
          if negb (hd =? 0) && negb (dd =? 0)
          then Ok (c, (urgency_score + inject_Z (Z.abs (hd - dd)))%Q)
          else Ok (c, urgency_score)
      | _, _ => Ok (c, urgency_score)
      end
  end.

Fixpoint score_loop (estimated_hours : Q) (deadline_days : option Z)
    (scores : Q * Q) (history : list history_row) : outcome (Q * Q) :=
  match history with
  | [] => Ok scores
  | h :: rest =>
      match score_step estimated_hours deadline_days scores h with
      | Ok scores' => score_loop estimated_hours deadline_days scores' rest
      | Raise e => Raise e
      end
  end.

(** [SELECT ... FROM task_history WHERE category = ?] *)
Definition history_of (category : string) (db : database) : list history_row :=
  List.filter (fun h => sql_true (sql_eq (h_category h) (VText category)))
    (task_history db).

Definition suggest_priority (category : string) (estimated_hours : Q)
    (deadline_days : option Z) (db : database) : outcome Z :=
  let history := history_of category db in
  match history with
  | [] => Ok (_heuristic_priority estimated_hours deadline_days)
  | _ :: _ =>
      match score_loop estimated_hours deadline_days (0%Q, 0%Q) history with
      | Raise e => Raise e
      | Ok (complexity_score, urgency_score) =>
          let n := inject_Z (Z.of_nat (length history)) in
          let complexity_score := (complexity_score / n)%Q in
          let urgency_score := (urgency_score / n)%Q in
          let priority :=
            if within deadline_days 7 then 1
            else if within deadline_days 14 then 2
            else if Qgtb estimated_hours 20 then 2
            else if Qgtb estimated_hours 10 then 3
            else 4 in
          Ok (Z.max 1 (Z.min 5 priority))
      end
  end.

(** ** An instance of [fromisoformat]

    [YYYY-MM-DD], optionally followed by one separator character and
    [HH], [HH:MM] or [HH:MM:SS], the seconds optionally followed by a dot
    and three or six digits, the time optionally followed by an offset
    [+HH:MM] or [-HH:MM].  These are the layouts of [CURRENT_TIMESTAMP], of
    [datetime.isoformat] and of a date; the library reads others as
    well. *)

Definition digit (c : ascii) : option Z :=
  let n := Z.of_nat (nat_of_ascii c) in
  if (48 <=? n) && (n <=? 57) then Some (n - 48) else None.

Fixpoint digits (n : nat) (acc : Z) (l : list ascii) : option (Z * list ascii) :=
  match n with
  | O => Some (acc, l)
  | S n' =>
      match l with
      | c :: l' => d ← digit c; digits n' (10 * acc + d) l'
      | [] => None
      end
  end.

Definition expect (c : ascii) (l : list ascii) : option (list ascii) :=
  match l with
  | c' :: l' => if Ascii.eqb c c' then Some l' else None
  | [] => None
  end.

Definition is_leap (y : Z) : bool :=
  ((y mod 4 =? 0) && negb (y mod 100 =? 0)) || (y mod 400 =? 0).

Definition days_in_month (y m : Z) : Z :=
  if m =? 2 then (if is_leap y then 29 else 28)
  else if (m =? 4) || (m =? 6) || (m =? 9) || (m =? 11) then 30
  else 31.

(** Days from 1970-01-01 to the given date of the proleptic Gregorian
    calendar. *)
Definition days_from_civil (y m d : Z) : Z :=
  let y' := if m <=? 2 then y - 1 else y in
  let era := y' `div` 400 in
  let yoe := y' - era * 400 in
  let doy := (153 * (if 2 <? m then m - 3 else m + 9) + 2) `div` 5 + d - 1 in
  let doe := yoe * 365 + yoe `div` 4 - yoe `div` 100 + doy in
  era * 146097 + doe - 719468.

Definition parse_date (l : list ascii) : option (Z * list ascii) :=
  '(y, l) ← digits 4 0 l;
  l ← expect "-"%char l;
  '(m, l) ← digits 2 0 l;
  l ← expect "-"%char l;
  '(d, l) ← digits 2 0 l;
  if (1 <=? y) && (1 <=? m) && (m <=? 12) && (1 <=? d)
     && (d <=? days_in_month y m)
  then Some (days_from_civil y m d, l) else None.

(** The fraction of a second, in microseconds. *)
Definition parse_fraction (l : list ascii) : option (Z * list ascii) :=
  match expect "."%char l with
  | Some l' =>
      match digits 6 0 l' with
      | Some r => Some r
      | None => '(ms, l'') ← digits 3 0 l'; Some (ms * 1000, l'')
      end
  | None => Some (0, l)
  end.

(** The time of day, in microseconds. *)
Definition parse_time (l : list ascii) : option (Z * list ascii) :=
  '(h, l) ← digits 2 0 l;
  '(mi, s, us, l) ←
    match expect ":"%char l with
    | Some l =>
        '(mi, l) ← digits 2 0 l;
        match expect ":"%char l with
        | Some l =>
            '(s, l) ← digits 2 0 l;
            '(us, l) ← parse_fraction l;
            Some (mi, s, us, l)
        | None => Some (mi, 0, 0, l)
        end
    | None => Some (0, 0, 0, l)
    end;
  if (h <? 24) && (mi <? 60) && (s <? 60)
  then Some (((h * 60 + mi) * 60 + s) * 1000000 + us, l) else None.

(** The UTC offset that ends the text, in microseconds; [Some None] when
    the text ends without one. *)
Definition parse_offset (l : list ascii) : option (option Z) :=
  match l with
  | [] => Some None
  | sign :: l =>
      sign ← (if Ascii.eqb sign "+" then Some 1
              else if Ascii.eqb sign "-" then Some (-1) else None);
      '(h, l) ← digits 2 0 l;
      l ← expect ":"%char l;
      '(mi, l) ← digits 2 0 l;
      match l with
      | [] => if (h <? 24) && (mi <? 60)
              then Some (Some (sign * ((h * 60 + mi) * 60 * 1000000)))
              else None
      | _ :: _ => None
      end
  end.

Definition fromisoformat_basic (s : string) : option datetime :=
  '(days, l) ← parse_date (list_ascii_of_string s);
  match l with
  | [] => Some (Naive (days * 86400000000))
  | _ :: l' =>
      '(t, l'') ← parse_time l';
      offset ← parse_offset l'';
      Some (match offset with
            | None => Naive (days * 86400000000 + t)
            | Some o => Aware (days * 86400000000 + t - o)
            end)
  end.

(** ** The calls that change the store *)

Inductive op : Type :=
| AddTask (now : string)
    (title description category priority deadline estimated_hours : value)
    (tag_list : option (list string))
| UpdateTask (task_id : Z) (kwargs : list (string * value))
| CompleteTask (now : string) (task_id : Z) (actual_hours : value)
| DeleteTask (task_id : Z)
| ImportTasks (clock : nat -> string) (f : file).

Section Reachable.

Variable fromisoformat : string -> option datetime.

(** The store a call leaves behind, whether it returns or raises. *)
Definition run (o : op) (db : database) : database :=
  match o with
  | AddTask now title description category priority deadline est tag_list =>
      (add_task now title description category priority deadline est
         tag_list db).2
  | UpdateTask task_id kwargs => (update_task task_id kwargs db).2
  | CompleteTask now task_id actual_hours =>
      (complete_task fromisoformat now task_id actual_hours db).2
  | DeleteTask task_id => delete_task task_id db
  | ImportTasks clock f => (import_tasks clock f db).2
  end.

(** The stores the manager can be in, starting from an empty file. *)
Inductive reachable : database -> Prop :=
| reachable_init : reachable init_db
| reachable_run (o : op) (db : database) :
    reachable db -> reachable (run o db).

End Reachable.

(** ** Invariants of the tables *)

(** What the schema and the calls maintain: ids are positive, unique and
    at most the counter; titles are not NULL; [created_at] is a text; every
    tag row belongs to an id that has been handed out and holds a stripped
    tag. *)
Record wf (db : database) : Prop := {
  wf_ids : Forall (fun r => 0 < t_id r <= seq_tasks db) (tasks db);
  wf_unique : NoDup (map t_id (tasks db));
  wf_title : Forall (fun r => t_title r <> VNull) (tasks db);
  wf_created : Forall (fun r => exists s, t_created_at r = VText s) (tasks db);
  wf_tag_ids : Forall (fun g => g_task_id g <= seq_tasks db) (tags db);
  wf_tag_stripped : Forall (fun g => strip (g_tag g) = g_tag g) (tags db);
  wf_seq : 0 <= seq_tasks db
}.

(** [completed_at] is set exactly on the rows whose status is
    ['completed']. *)
Definition completion_invariant (db : database) : Prop :=
  Forall (fun r => t_completed_at r <> VNull <-> t_status r = VText "completed")
    (tasks db).

(** ** The vocabulary of the statements *)

(** [a] may come before [b] in a result. *)
Definition order_le (a b : task_row) : Prop := order_leb a b = true.

(** The tag rows a call to [add_task] appends. *)
Fixpoint new_tag_rows (task_id seq : Z) (l : list string) : list tag_row :=
  match l with
  | [] => []
  | tag :: l' =>
      {| g_id := seq + 1; g_task_id := task_id; g_tag := strip tag |}
      :: new_tag_rows task_id (seq + 1) l'
  end.

(** The task row a call to [add_task] appends. *)
Definition new_task_row (task_id : Z) (now : string)
    (title description category priority deadline estimated_hours : value)
  : task_row :=
  {| t_id := task_id; t_title := title; t_description := description;
     t_category := category; t_priority := priority;
     t_status := VText "pending"; t_deadline := deadline;
     t_created_at := VText now; t_completed_at := VNull;
     t_estimated_hours := estimated_hours; t_actual_hours := VNull |}.

(** No white space in front. *)
Definition no_lead (l : list ascii) : Prop :=
  match l with
  | [] => True
  | c :: _ => is_space c = false
  end.

(** A call that can write the [status] column through [update_task]. *)
Definition touches_status (o : op) : bool :=
  match o with
  | UpdateTask _ kwargs => existsb (fun kv => (kv.1 =? "status")%string) kwargs
  | _ => false
  end.

(** [add_task] and [import_tasks] only append rows, all of them pending
    and without a completion time. *)
Definition fresh_rows (l : list task_row) : Prop :=
  Forall (fun r => t_status r = VText "pending" /\ t_completed_at r = VNull) l.

(** A store with the single pending task 1. *)
Definition one_task : database :=
  (add_task_default "2024-01-01 00:00:00" (VText "a") init_db).2.

(** [d[key]] for a key of the dict. *)
Definition dict_col (d : task_dict) (key : string) : value :=
  default VNull (entries d !! key).

(** The order of two dicts of a result: by priority, then by deadline, in
    the order [value_compare] gives the values. *)
Definition listed_in_order (d1 d2 : task_dict) : Prop :=
  match value_compare (dict_col d1 "priority") (dict_col d2 "priority") with
  | Lt => True
  | Gt => False
  | Eq =>
      value_compare (dict_col d1 "deadline") (dict_col d2 "deadline") <> Gt
  end.

(** Task 1 has a deadline, task 2 has none; both have priority 3. *)
Definition two_tasks : database :=
  (add_task "2024-01-01 00:00:01" (VText "b") (VText "") (VText "general")
     (VInt 3) VNull (VInt 0) None
     (add_task "2024-01-01 00:00:00" (VText "a") (VText "") (VText "general")
        (VInt 3) (VText "2024-05-01T00:00:00") (VInt 0) None init_db).2).2.

(** The dicts of a result whose id is not [task_id]. *)
Definition other_than (task_id : Z) (d : task_dict) : bool :=
  match dict_col d "id" with
  | VInt i => negb (i =? task_id)
  | _ => true
  end.

(** Task 1, created on 1 January with a deadline ten days later. *)
Definition dated_task : database :=
  (add_task "2024-01-01 00:00:00" (VText "report") (VText "")
     (VText "work") (VInt 2) (VText "2024-01-11T00:00:00") (VReal 8) None
     init_db).2.


(** Task 1 of [dated_task], completed twenty minutes after its creation. *)
Definition quick_task : database :=
  run fromisoformat_basic (CompleteTask "2024-01-01T00:20:00" 1 VNull)
    dated_task.


(** The task rows [import_tasks] appends for the exported rows [rows]:
    fresh ids from [seq + 1] on, the creation time read at each
    insertion. *)
Fixpoint imported_rows (clock : nat -> string) (k : nat) (seq : Z)
    (rows : list task_row) : list task_row :=
  match rows with
  | [] => []
  | row :: rest =>
      new_task_row (seq + 1) (clock k) (t_title row) (t_description row)
        (t_category row) (t_priority row) (t_deadline row)
        (t_estimated_hours row)
      :: imported_rows clock (S k) (seq + 1) rest
  end.

(** The tag rows it appends; [db0] is the store the export was read from. *)
Fixpoint imported_tags (db0 : database) (seq_t seq_g : Z)
    (rows : list task_row) : list tag_row :=
  match rows with
  | [] => []
  | row :: rest =>
      new_tag_rows (seq_t + 1) seq_g (tags_of (t_id row) db0)
      ++ imported_tags db0 (seq_t + 1)
           (seq_g + Z.of_nat (length (tags_of (t_id row) db0))) rest
  end.

(** Task 1 with two tags, task 2 with none. *)
Definition tagged_tasks : database :=
  run fromisoformat_basic
    (AddTask "2024-01-01 00:00:01" (VText "b") (VText "") (VText "general")
       (VInt 1) VNull (VInt 0) None)
    (run fromisoformat_basic
       (AddTask "2024-01-01 00:00:00" (VText "a") (VText "notes")
          (VText "home") (VInt 3) (VText "2024-05-01T00:00:00") (VReal 2)
          (Some [" garden "; "spring"]))
       init_db).

(** The decision tables as the specification words them: a deadline of at
    most so many days, whatever its sign. *)
Definition spec_within (deadline_days : option Z) (bound : Z) : bool :=
  match deadline_days with
  | Some d => d <=? bound
  | None => false
  end.

Definition spec_table_without_history (estimated_hours : Q)
    (deadline_days : option Z) : Z :=
  if spec_within deadline_days 3 then 1
  else if spec_within deadline_days 7 then 2
  else if Qgtb estimated_hours 15 then 2
  else if Qgtb estimated_hours 5 then 3
  else 4.

Definition spec_table_with_history (estimated_hours : Q)
    (deadline_days : option Z) : Z :=
  if spec_within deadline_days 7 then 1
  else if spec_within deadline_days 14 then 2
  else if Qgtb estimated_hours 20 then 2
  else if Qgtb estimated_hours 10 then 3
  else 4.

(** The scores are computed unless a history row holds a text where the
    estimate should be. *)
Definition numeric_estimate (h : history_row) : Prop :=
  forall s, h_estimated_hours h <> VText s.

(** ** Application.search_tasks *)

Fixpoint starts_with (needle hay : string) : bool :=
  match needle, hay with
  | EmptyString, _ => true
  | String a needle', String b hay' => Ascii.eqb a b && starts_with needle' hay'
  | String _ _, EmptyString => false
  end.

(** [needle in hay] on two [str]. *)
Fixpoint contains (needle hay : string) : bool :=
  starts_with needle hay ||
  match hay with
  | String _ hay' => contains needle hay'
  | EmptyString => false
  end.

(** [a or b] when evaluating a condition can raise: [b] is not looked at
    once [a] is true; [None] is the exception. *)
Definition or_else (a b : option bool) : option bool :=
  match a with
  | Some true => Some true
  | Some false => b
  | None => None
  end.

Section Search.

(** [str.lower], of the Python library. *)
Variable lower : string -> string.

(** [keyword in v.lower()]: an [AttributeError] ([None]) for what is not a
    [str]. *)
Definition lower_contains (keyword : string) (v : value) : option bool :=
  match v with
  | VText s => Some (contains keyword (lower s))
  | _ => None
  end.

(** The condition of the list comprehension of [search_tasks]. *)
Definition task_matches (keyword : string) (task : task_dict) : option bool :=
  or_else (lower_contains keyword (dict_col task "title"))
    (or_else (lower_contains keyword (dict_col task "description"))
       (or_else (lower_contains keyword (dict_col task "category"))
          (Some (existsb (fun tag => contains keyword (lower tag))
                   (default [] (tags_entry task)))))).

Fixpoint matching_tasks (keyword : string) (all_tasks : list task_dict)
  : option (list task_dict) :=
  match all_tasks with
  | [] => Some []
  | task :: rest =>
      match task_matches keyword task with
      | None => None
      | Some b =>
          match matching_tasks keyword rest with
          | None => None
          | Some l => Some (if b then task :: l else l)
          end
      end
  end.

(** The tasks [search_tasks] prints for the line [input] typed at the
    prompt; [None] when [.lower()] meets a value that is not a [str]. *)
Definition search_tasks (input : string) (db : database)
  : option (list task_dict) :=
  let keyword := lower (strip input) in
  matching_tasks keyword (get_tasks None None db).

(** ** Application.view_tasks

    The tasks [view_tasks] prints for the line [input] typed at the
    prompt. *)
Definition view_tasks (input : string) (db : database) : list task_dict :=
  let status := lower (strip input) in
  let status := if (status =? "all")%string then None else Some status in
  get_tasks status None db.

End Search.

(** [str.lower] on ASCII letters, an instance for the examples. *)
Definition lower_ascii (s : string) : string :=
  string_of_list_ascii
    (map (fun c => let n := nat_of_ascii c in
                   if (65 <=? n)%nat && (n <=? 90)%nat
                   then ascii_of_nat (n + 32) else c)
       (list_ascii_of_string s)).

(** ** More vocabulary *)

(** The store after a sequence of calls. *)
Definition run_all (fromisoformat : string -> option datetime) (ops : list op)
    (db : database) : database :=
  fold_left (fun d o => run fromisoformat o d) ops db.

(** No white space at either end. *)
Definition trimmed (s : string) : Prop :=
  no_lead (list_ascii_of_string s) /\ no_lead (rev (list_ascii_of_string s)).

(** Every tag row belongs to a stored task. *)
Definition tags_owned (db : database) : Prop :=
  Forall (fun g => In (g_task_id g) (map t_id (tasks db))) (tags db).

(** The count a breakdown of [get_statistics] gives for the group of [v]. *)
Definition count_of (v : value) (groups : list (value * nat)) : nat :=
  fold_right
    (fun g acc => if same_group v g.1 then (g.2 + acc)%nat else acc)
    0%nat groups.

Definition total_count (groups : list (value * nat)) : nat :=
  fold_right (fun g acc => (g.2 + acc)%nat) 0%nat groups.

(** The test the two filters of [get_tasks] make, read on a dict of the
    result. *)
Definition dict_selected (status category : option string) (d : task_dict)
  : bool :=
  filter_clause status (dict_col d "status")
  && filter_clause category (dict_col d "category").

(** The values a column keeps as they are written: NULL, a text in a TEXT
    column, a 64-bit integer in the INTEGER column [priority], a real in a
    REAL column.  Column affinity converts some of the others. *)
Definition keeps (field : string) (v : value) : bool :=
  match v with
  | VNull => true
  | VText _ =>
      existsb (String.eqb field)
        ["title"; "description"; "category"; "status"; "deadline"]
  | VInt z => (field =? "priority")%string && int64 z
  | VReal _ =>
      existsb (String.eqb field) ["estimated_hours"; "actual_hours"]
  end.

(** Task 1 with a deadline that carries a UTC offset. *)
Definition offset_task : database :=
  (add_task "2024-01-01 00:00:00" (VText "call") (VText "")
     (VText "home") (VInt 3) (VText "2024-01-11T00:00:00+02:00") (VReal 1)
     None init_db).2.

(** The dict of the result whose id is [task_id]. *)
Definition has_id (task_id : Z) (d : task_dict) : bool :=
  negb (other_than task_id d).

(** A dict without the key [title]. *)
Definition untitled : task_dict :=
  {| entries := {["description" := VText "no title"]};
     tags_entry := None |}.

(** Task 1 with a deadline that is no ISO text. *)
Definition vague_task : database :=
  (add_task "2024-01-01 00:00:00" (VText "call") (VText "")
     (VText "home") (VInt 3) (VText "soon") (VReal 1) None init_db).2.

(** Task 1 with the empty text as deadline. *)
Definition blank_deadline_task : database :=
  (add_task "2024-01-01 00:00:00" (VText "call") (VText "")
     (VText "home") (VInt 3) (VText "") (VReal 1) None init_db).2.

(** * Properties *)

(** ** The order of [ORDER BY] *)

Lemma ascii_compare_lt_trans (a b c : ascii) :
  Ascii.compare a b = Lt -> Ascii.compare b c = Lt -> Ascii.compare a c = Lt.
Proof.
  unfold Ascii.compare. rewrite !N.compare_lt_iff. apply N.lt_trans.
Qed.

Lemma ascii_compare_refl (a : ascii) : Ascii.compare a a = Eq.
Proof. unfold Ascii.compare. apply N.compare_refl. Qed.


Lemma string_compare_lt_trans (s t u : string) :
  String.compare s t = Lt -> String.compare t u = Lt -> String.compare s u = Lt.
Proof.
  revert t u. induction s as [|a s IH]; intros [|b t] [|c u]; simpl;
    try congruence.
  destruct (Ascii.compare a b) eqn:Hab; try discriminate;
    destruct (Ascii.compare b c) eqn:Hbc; try discriminate; intros H1 H2.
  - apply Ascii.compare_eq_iff in Hab, Hbc. subst.
    rewrite ascii_compare_refl. eauto.
  - apply Ascii.compare_eq_iff in Hab. subst. now rewrite Hbc.
  - apply Ascii.compare_eq_iff in Hbc. subst. now rewrite Hab.
  - now rewrite (ascii_compare_lt_trans _ _ _ Hab Hbc).
Qed.

Lemma value_compare_antisym (a b : value) :
  value_compare a b = CompOpp (value_compare b a).
Proof.
  destruct a, b; simpl; try reflexivity;
    try (now rewrite <- Qcompare_antisym);
    apply String.compare_antisym.
Qed.


(** Values that compare equal compare alike with any third value. *)
Lemma value_compare_eq_l (a b c : value) :
  value_compare a b = Eq -> value_compare a c = value_compare b c.
Proof.
  destruct a, b; simpl; try discriminate; intros H; destruct c; simpl;
    try reflexivity;
    try (apply Qeq_alt in H; now rewrite H).
  apply String.compare_eq_iff in H. now subst.
Qed.

Lemma value_compare_eq_r (a b c : value) :
  value_compare b c = Eq -> value_compare a b = value_compare a c.
Proof.
  intros H. rewrite (value_compare_antisym a b), (value_compare_antisym a c).
  f_equal. symmetry. apply value_compare_eq_l.
  rewrite value_compare_antisym, H. reflexivity.
Qed.

Lemma value_compare_lt_trans (a b c : value) :
  value_compare a b = Lt -> value_compare b c = Lt -> value_compare a c = Lt.
Proof.
  destruct a, b; simpl; try discriminate; intros H1; destruct c; simpl;
    try discriminate; try reflexivity; intros H2;
    try (apply Qlt_alt; apply Qlt_alt in H1, H2; eapply Qlt_trans; eassumption).
  eapply string_compare_lt_trans; eassumption.
Qed.

Lemma order_leb_total (a b : task_row) :
  order_leb a b = false -> order_leb b a = true.
Proof.
  unfold order_leb, value_leb.
  rewrite (value_compare_antisym (t_priority b)),
    (value_compare_antisym (t_deadline b)).
  destruct (value_compare (t_priority a) (t_priority b)); simpl;
    try congruence.
  destruct (value_compare (t_deadline a) (t_deadline b)); simpl; congruence.
Qed.

Lemma order_leb_trans (a b c : task_row) :
  order_leb a b = true -> order_leb b c = true -> order_leb a c = true.
Proof.
  unfold order_leb, value_leb.
  destruct (value_compare (t_priority a) (t_priority b)) eqn:Hab;
    try discriminate;
    destruct (value_compare (t_priority b) (t_priority c)) eqn:Hbc;
    try discriminate.
  - rewrite (value_compare_eq_l _ _ _ Hab), Hbc.
    destruct (value_compare (t_deadline a) (t_deadline b)) eqn:Dab;
      try discriminate;
      destruct (value_compare (t_deadline b) (t_deadline c)) eqn:Dbc;
      try discriminate; intros _ _.
    + now rewrite (value_compare_eq_l _ _ _ Dab), Dbc.
    + now rewrite (value_compare_eq_l _ _ _ Dab), Dbc.
    + now rewrite <- (value_compare_eq_r _ _ _ Dbc), Dab.
    + now rewrite (value_compare_lt_trans _ _ _ Dab Dbc).
  - now rewrite (value_compare_eq_l _ _ _ Hab), Hbc.
  - now rewrite <- (value_compare_eq_r _ _ _ Hbc), Hab.
  - now rewrite (value_compare_lt_trans _ _ _ Hab Hbc).
Qed.

Lemma insert_row_perm (x : task_row) (l : list task_row) :
  Permutation (x :: l) (insert_row x l).
Proof.
  induction l as [|y l IH]; simpl; [reflexivity|].
  destruct (order_leb x y); [reflexivity|].
  rewrite perm_swap. now constructor.
Qed.

Lemma order_by_perm (l : list task_row) : Permutation l (order_by l).
Proof.
  induction l as [|x l IH]; simpl; [constructor|].
  rewrite <- insert_row_perm. now constructor.
Qed.

Lemma insert_row_sorted (x : task_row) (l : list task_row) :
  StronglySorted order_le l -> StronglySorted order_le (insert_row x l).
Proof.
  induction 1 as [|y l Hs IH Hy]; simpl.
  - repeat constructor.
  - destruct (order_leb x y) eqn:Hxy.
    + constructor; [now constructor|].
      constructor; [exact Hxy|].
      eapply Forall_impl; [exact Hy|].
      intros z Hz. eapply order_leb_trans; eassumption.
    + constructor; [exact IH|].
      rewrite <- insert_row_perm. constructor; [|exact Hy].
      now apply order_leb_total.
Qed.

Lemma order_by_sorted (l : list task_row) : StronglySorted order_le (order_by l).
Proof.
  induction l as [|x l IH]; simpl; [constructor|].
  now apply insert_row_sorted.
Qed.

Lemma insert_row_least (x : task_row) (l : list task_row) :
  Forall (order_le x) l -> insert_row x l = x :: l.
Proof.
  destruct 1 as [|y l Hy _]; simpl; [reflexivity|].
  unfold order_le in Hy. now rewrite Hy.
Qed.

Lemma filter_insert_row (P : task_row -> bool) (x : task_row)
    (l : list task_row) :
  StronglySorted order_le l ->
  List.filter P (insert_row x l) =
  if P x then insert_row x (List.filter P l) else List.filter P l.
Proof.
  induction 1 as [|y l Hs IH Hy]; simpl.
  - destruct (P x); reflexivity.
  - destruct (order_leb x y) eqn:Hxy; simpl.
    + destruct (P x) eqn:Px; [|reflexivity].
      symmetry. apply (insert_row_least x (List.filter P (y :: l))).
      apply incl_Forall with (l1 := y :: l).
      * intros z Hz. apply filter_In in Hz. tauto.
      * constructor; [exact Hxy|].
        eapply Forall_impl; [exact Hy|].
        intros z Hz. eapply order_leb_trans; eassumption.
    + rewrite IH. destruct (P y) eqn:Py, (P x) eqn:Px; simpl;
        rewrite ?Hxy; reflexivity.
Qed.

(** A [WHERE] clause commutes with [ORDER BY]. *)
Lemma filter_order_by (P : task_row -> bool) (l : list task_row) :
  List.filter P (order_by l) = order_by (List.filter P l).
Proof.
  induction l as [|x l IH]; simpl; [reflexivity|].
  rewrite filter_insert_row by apply order_by_sorted.
  rewrite IH. destruct (P x); reflexivity.
Qed.

(** ** Inserting a task and its tags *)

Lemma fold_insert_tag (task_id : Z) (l : list string) (db : database) :
  fold_left (fun d tag => insert_tag task_id (strip tag) d) l db =
  {| tasks := tasks db; task_history := task_history db;
     tags := tags db ++ new_tag_rows task_id (seq_tags db) l;
     seq_tasks := seq_tasks db; seq_history := seq_history db;
     seq_tags := seq_tags db + Z.of_nat (length l) |}.
Proof.
  revert db. induction l as [|tag l IH]; intros db.
  - destruct db; simpl. now rewrite app_nil_r, Z.add_0_r.
  - cbn [fold_left]. rewrite IH. unfold insert_tag; cbn -[Z.of_nat Z.add].
    f_equal; [now rewrite <- app_assoc | lia].
Qed.

Lemma add_task_ok (now : string)
    (title description category priority deadline est : value)
    (tag_list : option (list string)) (db : database) :
  title <> VNull ->
  add_task now title description category priority deadline est tag_list db =
  (Ok (seq_tasks db + 1),
   {| tasks := tasks db ++
        [new_task_row (seq_tasks db + 1) now title description category
           priority deadline est];
      task_history := task_history db;
      tags := tags db ++
        new_tag_rows (seq_tasks db + 1) (seq_tags db) (default [] tag_list);
      seq_tasks := seq_tasks db + 1; seq_history := seq_history db;
      seq_tags := seq_tags db + Z.of_nat (length (default [] tag_list)) |}).
Proof.
  intros Ht. unfold add_task.
  destruct title; try congruence;
    (destruct tag_list as [l|]; cbn -[Z.of_nat Z.add];
     [rewrite fold_insert_tag; reflexivity
     | unfold insert_task; cbn; now rewrite app_nil_r, Z.add_0_r]).
Qed.

Lemma with_tasks_same (db : database) : with_tasks (tasks db) db = db.
Proof. now destruct db. Qed.

Lemma map_unmatched {A : Type} (f : A -> A) (p : A -> bool) (l : list A) :
  Forall (fun x => p x = false) l ->
  map (fun x => if p x then f x else x) l = l.
Proof.
  induction 1 as [|x l Hx _ IH]; simpl; [reflexivity|].
  now rewrite Hx, IH.
Qed.




(** ** C1: an empty title *)

(** C1, as the code has it: [add_task] does not check the title.  With the
    empty title it returns the new id, having appended the task row (title
    [""], status ['pending']) and one tag row per tag. *)
Theorem add_task_empty_title_inserts (now : string)
    (description category priority deadline est : value)
    (tag_list : option (list string)) (db : database) :
  let r := add_task now (VText "") description category priority deadline est
             tag_list db in
  r.1 = Ok (seq_tasks db + 1) /\
  tasks r.2 = tasks db ++
    [new_task_row (seq_tasks db + 1) now (VText "") description category
       priority deadline est] /\
  tags r.2 = tags db ++
    new_tag_rows (seq_tasks db + 1) (seq_tags db) (default [] tag_list) /\
  task_history r.2 = task_history db.
Proof.
  cbv zeta. rewrite add_task_ok by discriminate. cbn. auto.
Qed.

(** C1 refuted: on the empty store, [add_task] with the empty title and one
    tag does not raise and does not leave the store as it was. *)
Lemma add_task_empty_title_counterexample :
  let r := add_task "2024-01-01 00:00:00" (VText "") (VText "")
             (VText "general") (VInt 3) VNull (VInt 0) (Some ["home"])
             init_db in
  (forall e, r.1 <> Raise e) /\ r.1 = Ok 1 /\
  length (tasks r.2) = 1%nat /\ length (tags r.2) = 1%nat /\ r.2 <> init_db.
Proof.
  cbv zeta. repeat split; try reflexivity; vm_compute; discriminate.
Qed.

(** ** C3: an id that is not in the store *)

Section MissingId.

Variable fromisoformat : string -> option datetime.


End MissingId.



(** ** [strip] is idempotent *)

Lemma lstrip_no_lead (l : list ascii) : no_lead (lstrip_list l).
Proof.
  induction l as [|c l IH]; simpl; [exact I|].
  destruct (is_space c) eqn:Hc; [exact IH | exact Hc].
Qed.

Lemma lstrip_fixed (l : list ascii) : no_lead l -> lstrip_list l = l.
Proof. destruct l as [|c l]; simpl; [reflexivity|]. now intros ->. Qed.

Lemma lstrip_snoc (l : list ascii) (c : ascii) :
  is_space c = false -> exists t, lstrip_list (l ++ [c]) = t ++ [c].
Proof.
  intros Hc. induction l as [|d l IH]; simpl.
  - rewrite Hc. now exists [].
  - destruct (is_space d); [exact IH|]. now exists (d :: l).
Qed.

Lemma rstrip_no_lead (l : list ascii) :
  no_lead l -> no_lead (rev (lstrip_list (rev l))).
Proof.
  destruct l as [|c l]; simpl; [trivial|]. intros Hc.
  destruct (lstrip_snoc (rev l) c Hc) as [t ->].
  rewrite rev_app_distr. exact Hc.
Qed.

Lemma strip_list_idem (l : list ascii) :
  strip_list (strip_list l) = strip_list l.
Proof.
  unfold strip_list. set (m := lstrip_list l).
  rewrite (lstrip_fixed (rev (lstrip_list (rev m))))
    by apply rstrip_no_lead, lstrip_no_lead.
  rewrite rev_involutive.
  now rewrite (lstrip_fixed (lstrip_list (rev m))) by apply lstrip_no_lead.
Qed.

Lemma strip_idem (s : string) : strip (strip s) = strip s.
Proof.
  unfold strip. rewrite list_ascii_of_string_of_list_ascii.
  now rewrite strip_list_idem.
Qed.

(** ** The invariants hold in every reachable store *)

Lemma new_tag_rows_task_id (task_id seq : Z) (l : list string) :
  Forall (fun g => g_task_id g = task_id /\ strip (g_tag g) = g_tag g)
    (new_tag_rows task_id seq l).
Proof.
  revert seq. induction l as [|t l IH]; intros seq; simpl; constructor; auto.
  simpl. split; [reflexivity | apply strip_idem].
Qed.

Lemma wf_init : wf init_db.
Proof. split; simpl; try constructor; lia. Qed.

Lemma wf_add_task (now : string)
    (title description category priority deadline est : value)
    (tag_list : option (list string)) (db : database) :
  wf db ->
  wf (add_task now title description category priority deadline est
        tag_list db).2.
Proof.
  intros [Hid Hu Ht Hc Hg Hs Hq].
  assert (title = VNull \/ title <> VNull) as [->|Hn]
    by (destruct title; auto; right; discriminate);
    [now split|].
  rewrite add_task_ok by exact Hn. split; cbn -[Z.add].
  - apply Forall_app. split.
    + eapply Forall_impl; [exact Hid|]. simpl. intros; lia.
    + repeat constructor; simpl; lia.
  - rewrite map_app. simpl. apply NoDup_app. split; [exact Hu|]. split.
    + intros x Hx Hx'. apply list_elem_of_In, in_map_iff in Hx.
      destruct Hx as (r & <- & Hr). apply list_elem_of_In in Hr.
      rewrite Forall_forall in Hid. specialize (Hid _ Hr).
      apply list_elem_of_In in Hx'. simpl in Hx'. lia.
    + apply NoDup_singleton.
  - apply Forall_app. split; [exact Ht|]. now repeat constructor.
  - apply Forall_app. split; [exact Hc|]. repeat constructor. simpl. eauto.
  - apply Forall_app. split.
    + eapply Forall_impl; [exact Hg|]. simpl. intros; lia.
    + eapply Forall_impl; [apply new_tag_rows_task_id|].
      simpl. intros g [-> _]. lia.
  - apply Forall_app. split; [exact Hs|].
    eapply Forall_impl; [apply new_tag_rows_task_id|]. now intros g [_ ?].
  - lia.
Qed.

Lemma apply_updates_id (updates : list (string * value)) (r : task_row) :
  t_id (apply_updates updates r) = t_id r /\
  t_created_at (apply_updates updates r) = t_created_at r /\
  t_completed_at (apply_updates updates r) = t_completed_at r.
Proof.
  unfold apply_updates. revert r.
  induction updates as [|kv l IH]; intros r; simpl; [auto|].
  destruct (IH (set_column kv.1 kv.2 r)) as (-> & -> & ->). auto.
Qed.

Lemma wf_update_task (task_id : Z) (kwargs : list (string * value))
    (db : database) :
  wf db -> wf (update_task task_id kwargs db).2.
Proof.
  intros Hwf. unfold update_task.
  destruct (List.filter _ kwargs) as [|kv updates]; [exact Hwf|].
  generalize (kv :: updates). intros u.
  destruct (existsb _ (tasks db)) eqn:Hex; [exact Hwf|].
  destruct Hwf as [Hid Hu Ht Hc Hg Hs Hq].
  assert (Hmap : map t_id
            (map (fun r => if t_id r =? task_id then apply_updates u r else r)
               (tasks db)) = map t_id (tasks db)).
  { rewrite map_map. apply map_ext. intros r.
    destruct (t_id r =? task_id); [apply apply_updates_id | reflexivity]. }
  split; cbn -[Z.add]; try assumption.
  - apply Forall_map. eapply Forall_impl; [exact Hid|]. intros r Hr. simpl.
    destruct (t_id r =? task_id); [|exact Hr].
    now rewrite (proj1 (apply_updates_id u r)).
  - now rewrite Hmap.
  - apply Forall_map. apply Forall_forall. intros r Hr. simpl.
    destruct (t_id r =? task_id) eqn:Hi.
    + intros Hnull.
      assert (Hin : In r (tasks db)) by now apply list_elem_of_In.
      assert (existsb (fun r => (t_id r =? task_id)
                && is_null (t_title (apply_updates u r))) (tasks db) = true).
      { apply existsb_exists. exists r. split; [exact Hin|].
        now rewrite Hi, Hnull. }
      congruence.
    + rewrite Forall_forall in Ht. now apply Ht.
  - apply Forall_map. eapply Forall_impl; [exact Hc|]. intros r Hr. simpl.
    destruct (t_id r =? task_id); [|exact Hr].
    now rewrite (proj1 (proj2 (apply_updates_id u r))).
Qed.

Lemma wf_mark_completed (now : string) (task_id : Z) (actual_hours : value)
    (db : database) :
  wf db ->
  wf (with_tasks
        (map (fun r => if t_id r =? task_id
                       then mark_completed now actual_hours r else r)
           (tasks db)) db).
Proof.
  intros [Hid Hu Ht Hc Hg Hs Hq].
  assert (Hmap : map t_id
            (map (fun r => if t_id r =? task_id
                           then mark_completed now actual_hours r else r)
               (tasks db)) = map t_id (tasks db)).
  { rewrite map_map. apply map_ext. intros r.
    now destruct (t_id r =? task_id). }
  split; cbn -[Z.add]; try assumption.
  - apply Forall_map. eapply Forall_impl; [exact Hid|]. intros r Hr. simpl.
    now destruct (t_id r =? task_id).
  - now rewrite Hmap.
  - apply Forall_map. eapply Forall_impl; [exact Ht|]. intros r Hr. simpl.
    now destruct (t_id r =? task_id).
  - apply Forall_map. eapply Forall_impl; [exact Hc|]. intros r Hr. simpl.
    now destruct (t_id r =? task_id).
Qed.

Lemma wf_insert_history (task_id : Z) (cat est act : value)
    (days : option Z) (hours : Q) (db : database) :
  wf db -> wf (insert_history task_id cat est act days hours db).
Proof. intros []. now split. Qed.

(** The three ways a call to [complete_task] ends: no such task, an
    exception after the row is updated, or a history row on top of the
    update. *)
Lemma complete_task_cases (fromisoformat : string -> option datetime)
    (now : string) (task_id : Z) (actual_hours : value) (db : database) :
  let db1 :=
    with_tasks
      (map (fun r => if t_id r =? task_id
                     then mark_completed now actual_hours r else r)
         (tasks db)) db in
  let r := complete_task fromisoformat now task_id actual_hours db in
  (List.find (fun r => t_id r =? task_id) (tasks db) = None /\ r = (Ok tt, db))
  \/ (exists task e,
        List.find (fun r => t_id r =? task_id) (tasks db) = Some task /\
        history_times fromisoformat now task = Raise e /\ r = (Raise e, db1))
  \/ (exists task hours days,
        List.find (fun r => t_id r =? task_id) (tasks db) = Some task /\
        history_times fromisoformat now task = Ok (hours, days) /\
        r = (Ok tt,
             insert_history task_id (t_category task) (t_estimated_hours task)
               actual_hours days hours db1)).
Proof.
  unfold complete_task.
  destruct (List.find _ (tasks db)) as [task|]; [|now left].
  right. destruct (history_times _ now task) as [[hours days]|e] eqn:Ht.
  - right. now exists task, hours, days.
  - left. now exists task, e.
Qed.

Lemma wf_complete_task (fromisoformat : string -> option datetime) (now : string)
    (task_id : Z) (actual_hours : value) (db : database) :
  wf db -> wf (complete_task fromisoformat now task_id actual_hours db).2.
Proof.
  intros Hwf.
  pose proof (wf_mark_completed now task_id actual_hours db Hwf) as H1.
  destruct (complete_task_cases fromisoformat now task_id actual_hours db)
    as [[_ ->]|[(task & e & _ & _ & ->)|(task & hours & days & _ & _ & ->)]];
    [exact Hwf | exact H1 | now apply wf_insert_history].
Qed.

Lemma wf_delete_task (task_id : Z) (db : database) :
  wf db -> wf (delete_task task_id db).
Proof.
  intros [Hid Hu Ht Hc Hg Hs Hq].
  split; cbn -[Z.add]; try assumption.
  - apply Forall_forall. intros r Hr. apply list_elem_of_In, filter_In in Hr.
    rewrite Forall_forall in Hid. apply Hid, list_elem_of_In, Hr.
  - clear -Hu. induction (tasks db) as [|r l IH]; simpl; [constructor|].
    inversion Hu as [|? ? Hr Hl]; subst.
    destruct (t_id r =? task_id); simpl; [now apply IH|].
    constructor; [|now apply IH].
    intros Hin. apply Hr. apply list_elem_of_In, in_map_iff in Hin.
    destruct Hin as (r' & <- & Hr'). apply filter_In in Hr'.
    apply list_elem_of_In, in_map. tauto.
  - apply Forall_forall. intros r Hr. apply list_elem_of_In, filter_In in Hr.
    rewrite Forall_forall in Ht. apply Ht, list_elem_of_In, Hr.
  - apply Forall_forall. intros r Hr. apply list_elem_of_In, filter_In in Hr.
    rewrite Forall_forall in Hc. apply Hc, list_elem_of_In, Hr.
  - apply Forall_forall. intros r Hr. apply list_elem_of_In, filter_In in Hr.
    rewrite Forall_forall in Hg. apply Hg, list_elem_of_In, Hr.
  - apply Forall_forall. intros r Hr. apply list_elem_of_In, filter_In in Hr.
    rewrite Forall_forall in Hs. apply Hs, list_elem_of_In, Hr.
Qed.

Lemma wf_import_loop (clock : nat -> string) (doc : list task_dict) :
  forall (k : nat) (db : database),
    wf db -> wf (import_loop clock k doc db).2.
Proof.
  induction doc as [|task rest IH]; intros k db Hwf; simpl; [exact Hwf|].
  destruct (_ !! "title") as [title|]; [|exact Hwf].
  match goal with
  | |- context [add_task ?n ?t ?d ?c ?p ?dl ?e ?tg db] =>
      pose proof (wf_add_task n t d c p dl e tg db Hwf) as H1;
      destruct (add_task n t d c p dl e tg db) as [[i|e'] db']
  end; [now apply IH | exact H1].
Qed.

Create HintDb wf.
#[local] Hint Resolve wf_init wf_add_task wf_update_task wf_complete_task
  wf_delete_task wf_import_loop : wf.

Lemma wf_run (fromisoformat : string -> option datetime) (o : op) (db : database) :
  wf db -> wf (run fromisoformat o db).
Proof.
  intros Hwf. destruct o; simpl; auto with wf.
  destruct f; simpl; auto with wf.
Qed.

Lemma reachable_wf (fromisoformat : string -> option datetime) (db : database) :
  reachable fromisoformat db -> wf db.
Proof.
  induction 1 as [|o db _ IH]; [exact wf_init | now apply wf_run].
Qed.

(** ** C2: completion status and completion time *)

Lemma set_column_status (field : string) (v : value) (r : task_row) :
  (field =? "status")%string = false ->
  t_status (set_column field v r) = t_status r.
Proof. intros H. simpl. now rewrite H. Qed.

Lemma apply_updates_status (updates : list (string * value)) (r : task_row) :
  existsb (fun kv => (kv.1 =? "status")%string) updates = false ->
  t_status (apply_updates updates r) = t_status r.
Proof.
  unfold apply_updates. revert r.
  induction updates as [|kv l IH]; intros r; simpl; [reflexivity|].
  intros H. apply orb_false_elim in H as [H1 H2].
  rewrite IH by exact H2. simpl. now rewrite H1.
Qed.

Lemma existsb_filter_false {A : Type} (p q : A -> bool) (l : list A) :
  existsb p l = false -> existsb p (List.filter q l) = false.
Proof.
  induction l as [|x l IH]; simpl; [reflexivity|].
  intros H. apply orb_false_elim in H as [H1 H2].
  destruct (q x); simpl; rewrite ?H1; auto.
Qed.

Lemma tasks_update_task (task_id : Z) (kwargs : list (string * value))
    (db : database) :
  tasks (update_task task_id kwargs db).2 = tasks db \/
  tasks (update_task task_id kwargs db).2 =
  map (fun r => if t_id r =? task_id
                then apply_updates (List.filter (fun kv => allowed kv.1) kwargs) r
                else r)
    (tasks db).
Proof.
  unfold update_task.
  destruct (List.filter _ kwargs) as [|kv updates]; [now left|].
  destruct (existsb _ (tasks db)); [now left | now right].
Qed.

Lemma find_none_unmatched {A : Type} (p : A -> bool) (l : list A) :
  List.find p l = None -> Forall (fun x => p x = false) l.
Proof.
  intros H. apply Forall_forall. intros x Hx.
  apply (find_none p l H), list_elem_of_In, Hx.
Qed.

Lemma tasks_complete_task (fromisoformat : string -> option datetime) (now : string)
    (task_id : Z) (actual_hours : value) (db : database) :
  tasks (complete_task fromisoformat now task_id actual_hours db).2 =
  map (fun r => if t_id r =? task_id
                then mark_completed now actual_hours r else r)
    (tasks db).
Proof.
  destruct (complete_task_cases fromisoformat now task_id actual_hours db)
    as [[Hf ->]|[(task & e & _ & _ & ->)|(task & hours & days & _ & _ & ->)]];
    [|reflexivity..].
  simpl. symmetry.
  apply (map_unmatched _ (fun r => t_id r =? task_id)).
  now apply find_none_unmatched.
Qed.

Lemma tasks_add_task (now : string)
    (title description category priority deadline est : value)
    (tag_list : option (list string)) (db : database) :
  exists l,
    tasks (add_task now title description category priority deadline est
             tag_list db).2 = tasks db ++ l /\ fresh_rows l.
Proof.
  assert (title = VNull \/ title <> VNull) as [->|Hn]
    by (destruct title; auto; right; discriminate).
  - exists []. simpl. split; [now rewrite app_nil_r | constructor].
  - rewrite add_task_ok by exact Hn. eexists. split; [reflexivity|].
    now repeat constructor.
Qed.

Lemma tasks_import_loop (clock : nat -> string) (doc : list task_dict) :
  forall (k : nat) (db : database),
  exists l, tasks (import_loop clock k doc db).2 = tasks db ++ l /\ fresh_rows l.
Proof.
  induction doc as [|task rest IH]; intros k db; simpl.
  - exists []. split; [now rewrite app_nil_r | constructor].
  - destruct (_ !! "title") as [title|];
      [|exists []; split; [now rewrite app_nil_r | constructor]].
    match goal with
    | |- context [add_task ?n ?t ?d ?c ?p ?dl ?e ?tg db] =>
        destruct (tasks_add_task n t d c p dl e tg db) as (l1 & H1 & F1);
        destruct (add_task n t d c p dl e tg db) as [[i|e'] db']
    end; simpl in H1.
    + destruct (IH (S k) db') as (l2 & H2 & F2).
      exists (l1 ++ l2). rewrite H2, H1, <- app_assoc. split; [reflexivity|].
      now apply Forall_app.
    + exists l1. now split.
Qed.

Lemma tasks_import_tasks (clock : nat -> string) (f : file) (db : database) :
  exists l, tasks (import_tasks clock f db).2 = tasks db ++ l /\ fresh_rows l.
Proof.
  destruct f; simpl; [apply tasks_import_loop|].
  exists []. split; [now rewrite app_nil_r | constructor].
Qed.

Lemma fresh_rows_invariant (l : list task_row) :
  fresh_rows l ->
  Forall (fun r => t_completed_at r <> VNull <-> t_status r = VText "completed") l.
Proof.
  intros H. eapply Forall_impl; [exact H|]. intros r [-> ->].
  split; [congruence | discriminate].
Qed.

(** Names the rows that the call to [add_task] in the goal appends. *)
Ltac appended_rows db l F :=
  match goal with
  | |- context [add_task ?n ?t ?d ?c ?p ?dl ?e ?tg db] =>
      destruct (tasks_add_task n t d c p dl e tg db) as (l & -> & F)
  end.

Section Completion.

Variable fromisoformat : string -> option datetime.

(** C2, as the code has it.  Every call except an [update_task] that
    writes [status] keeps [completed_at] set exactly on the completed rows.
    A task that is not deleted keeps its [completed_at] as it is through
    every call but a [complete_task] of that very task, so a [completed_at]
    that is set is never cleared.  [complete_task], given hours that the
    column keeps, writes the status, the time and the hours of that very
    call into the row, so a further call leaves the status ['completed']
    and overwrites [completed_at] and [actual_hours]. *)
Theorem completion_facts (o : op) (db : database) :
  (completion_invariant db -> touches_status o = false ->
   completion_invariant (run fromisoformat o db)) /\
  (forall r, r ∈ tasks db -> o <> DeleteTask (t_id r) ->
     exists r', r' ∈ tasks (run fromisoformat o db) /\ t_id r' = t_id r /\
       ((forall now actual_hours,
           o <> CompleteTask now (t_id r) actual_hours) ->
        t_completed_at r' = t_completed_at r) /\
       (t_completed_at r <> VNull -> t_completed_at r' <> VNull)) /\
  (forall now task_id actual_hours r',
     o = CompleteTask now task_id actual_hours ->
     keeps "actual_hours" actual_hours = true ->
     r' ∈ tasks (run fromisoformat o db) -> t_id r' = task_id ->
     t_status r' = VText "completed" /\ t_completed_at r' = VText now /\
     t_actual_hours r' = actual_hours).
Proof.
  split; [|split].
  - intros Hinv Hts. unfold completion_invariant in *. destruct o; simpl in *.
    + appended_rows db l F.
      apply Forall_app. split; [exact Hinv | now apply fresh_rows_invariant].
    + destruct (tasks_update_task task_id kwargs db) as [-> | ->];
        [exact Hinv|].
      apply Forall_map. eapply Forall_impl; [exact Hinv|]. intros r Hr. simpl.
      destruct (t_id r =? task_id); [|exact Hr].
      rewrite apply_updates_status by now apply existsb_filter_false.
      now rewrite (proj2 (proj2 (apply_updates_id _ r))).
    + rewrite tasks_complete_task.
      apply Forall_map. eapply Forall_impl; [exact Hinv|]. intros r Hr. simpl.
      destruct (t_id r =? task_id); [|exact Hr]. simpl. split; congruence.
    + apply Forall_forall. intros r Hr.
      apply list_elem_of_In, filter_In in Hr.
      rewrite Forall_forall in Hinv. apply Hinv, list_elem_of_In, Hr.
    + destruct (tasks_import_tasks clock f db) as (l & -> & F).
      apply Forall_app. split; [exact Hinv | now apply fresh_rows_invariant].
  - intros r Hr Hdel. destruct o; simpl.
    + appended_rows db l F.
      exists r. split; [apply elem_of_app; now left | auto].
    + destruct (tasks_update_task task_id kwargs db) as [-> | ->];
        [exists r; auto|].
      eexists. split; [apply list_elem_of_fmap_2, Hr|]. simpl.
      destruct (t_id r =? task_id); [|auto].
      destruct (apply_updates_id
                  (List.filter (fun kv => allowed kv.1) kwargs) r)
        as (-> & _ & ->). auto.
    + rewrite tasks_complete_task.
      eexists. split; [apply list_elem_of_fmap_2, Hr|]. simpl.
      destruct (t_id r =? task_id) eqn:E; simpl; [|auto].
      apply Z.eqb_eq in E. subst task_id.
      split; [reflexivity|]. split; [|discriminate].
      intros Hother. now destruct (Hother now actual_hours).
    + exists r. split; [|auto].
      apply list_elem_of_In, filter_In. split; [now apply list_elem_of_In|].
      apply negb_true_iff, Z.eqb_neq. congruence.
    + destruct (tasks_import_tasks clock f db) as (l & -> & F).
      exists r. split; [apply elem_of_app; now left | auto].
  - intros now task_id actual_hours r' -> _ Hr' Hid. simpl in Hr'.
    rewrite tasks_complete_task in Hr'.
    apply list_elem_of_fmap in Hr' as (r & -> & _).
    destruct (t_id r =? task_id) eqn:E; [simpl; auto|].
    apply Z.eqb_neq in E. contradiction.
Qed.

End Completion.

Lemma completion_facts_witness :
  let o := CompleteTask "2024-01-02T00:00:00" 1 (VReal 2) in
  let db := run fromisoformat_basic o dated_task in
  let o' := UpdateTask 1 [("priority", VInt 1)] in
  completion_invariant dated_task /\
  completion_invariant db /\
  (forall r', r' ∈ tasks db -> t_id r' = 1 ->
     t_status r' = VText "completed" /\
     t_completed_at r' = VText "2024-01-02T00:00:00" /\
     t_actual_hours r' = VReal 2) /\
  (forall r, r ∈ tasks db ->
     exists r', r' ∈ tasks (run fromisoformat_basic o' db) /\
                t_id r' = t_id r /\ t_completed_at r' = t_completed_at r).
Proof.
  assert (H : completion_invariant dated_task).
  { repeat constructor; simpl; congruence. }
  pose proof (completion_facts fromisoformat_basic
                (CompleteTask "2024-01-02T00:00:00" 1 (VReal 2)) dated_task)
    as (H1 & _ & H3).
  split; [exact H|]. split; [now apply H1|].
  split; [intros r' Hr' Hid; now apply (H3 _ _ _ r' eq_refl eq_refl)|].
  intros r Hr.
  destruct (completion_facts fromisoformat_basic
              (UpdateTask 1 [("priority", VInt 1)])
              (run fromisoformat_basic
                 (CompleteTask "2024-01-02T00:00:00" 1 (VReal 2)) dated_task))
    as (_ & H2 & _).
  destruct (H2 r Hr) as (r' & Hr' & Hid & Hsame & _); [discriminate|].
  exists r'. split; [exact Hr'|]. split; [exact Hid|].
  apply Hsame. discriminate.
Defined.

(** C2 refuted.  [update_task] with [status='completed'] leaves a completed
    row without [completed_at].  A second [complete_task] with the same
    hours replaces the [completed_at] the first one wrote, and one with
    other hours replaces the [actual_hours] as well. *)
Lemma completion_counterexample :
  let db1 := run fromisoformat_basic
               (UpdateTask 1 [("status", VText "completed")]) one_task in
  let db2 := run fromisoformat_basic
               (CompleteTask "2024-01-02T00:00:00" 1 (VReal 2)) one_task in
  let db3 := run fromisoformat_basic
               (CompleteTask "2024-01-03T00:00:00" 1 (VReal 2)) db2 in
  let db4 := run fromisoformat_basic
               (CompleteTask "2024-01-03T00:00:00" 1 (VReal 5)) db2 in
  completion_invariant one_task /\ ~ completion_invariant db1 /\
  map t_completed_at (tasks db2) = [VText "2024-01-02T00:00:00"] /\
  map t_completed_at (tasks db3) = [VText "2024-01-03T00:00:00"] /\
  map t_actual_hours (tasks db2) = [VReal 2] /\
  map t_actual_hours (tasks db4) = [VReal 5].
Proof.
  cbv zeta. split; [repeat constructor; simpl; congruence|].
  split; [|repeat split; reflexivity].
  intros H. apply Forall_inv in H. vm_compute in H.
  destruct H as [_ H]. now apply H.
Qed.

(** ** Reading the dicts of [get_tasks] *)

Lemma row_dict_cols (db : database) (r : task_row) :
  dict_col (row_dict db r) "id" = VInt (t_id r) /\
  dict_col (row_dict db r) "priority" = t_priority r /\
  dict_col (row_dict db r) "deadline" = t_deadline r.
Proof. repeat split; reflexivity. Qed.

Lemma select_tasks_In (status category : option string) (db : database)
    (r : task_row) :
  In r (select_tasks status category db) <->
  In r (tasks db) /\
  filter_clause status (t_status r) && filter_clause category (t_category r)
  = true.
Proof.
  unfold select_tasks. split.
  - intros H. apply (Permutation_in _ (Permutation_sym (order_by_perm _))) in H.
    now apply filter_In in H.
  - intros H. apply (Permutation_in _ (order_by_perm _)).
    now apply filter_In.
Qed.

Lemma get_tasks_all_In (db : database) (d : task_dict) :
  In d (get_tasks None None db) <->
  exists r, In r (tasks db) /\ d = row_dict db r.
Proof.
  unfold get_tasks. rewrite in_map_iff. split.
  - intros (r & <- & Hr). apply select_tasks_In in Hr. exists r. tauto.
  - intros (r & Hr & ->). exists r. split; [reflexivity|].
    apply select_tasks_In. now split.
Qed.

(** ** C5: the order of [get_tasks] *)

Lemma StronglySorted_map {A B : Type} (R : A -> A -> Prop)
    (S : B -> B -> Prop) (f : A -> B) (l : list A) :
  (forall a b, R a b -> S (f a) (f b)) ->
  StronglySorted R l -> StronglySorted S (map f l).
Proof.
  intros HRS. induction 1 as [|x l Hs IH Hx]; simpl; constructor; [exact IH|].
  apply Forall_map. eapply Forall_impl; [exact Hx|]. intros y. apply HRS.
Qed.

(** C5, as the code has it: whatever the store and the filter, the result
    is in ascending order of priority and, for equal priorities, of
    deadline, where a NULL deadline comes before every deadline that is
    set (SQLite sorts NULL first). *)
Theorem get_tasks_ordered (status category : option string) (db : database) :
  StronglySorted listed_in_order (get_tasks status category db) /\
  (forall deadline : string, value_compare VNull (VText deadline) = Lt).
Proof.
  split.
  - unfold get_tasks, select_tasks.
    eapply StronglySorted_map; [|apply order_by_sorted].
    intros a b. unfold order_le, order_leb, listed_in_order, value_leb.
    destruct (row_dict_cols db a) as (_ & -> & ->).
    destruct (row_dict_cols db b) as (_ & -> & ->).
    destruct (value_compare (t_priority a) (t_priority b));
      [|trivial|discriminate].
    destruct (value_compare (t_deadline a) (t_deadline b)); congruence.
  - reflexivity.
Qed.

(** C5 refuted: the task without a deadline is listed before the task of
    the same priority that has one. *)
Lemma get_tasks_order_counterexample :
  map (fun d => (dict_col d "id", dict_col d "priority", dict_col d "deadline"))
    (get_tasks None None two_tasks)
  = [(VInt 2, VInt 3, VNull); (VInt 1, VInt 3, VText "2024-05-01T00:00:00")].
Proof. reflexivity. Qed.

(** ** C8: deleting a task *)

Lemma filter_filter_swap {A : Type} (p q : A -> bool) (l : list A) :
  List.filter p (List.filter q l) = List.filter q (List.filter p l).
Proof.
  induction l as [|x l IH]; simpl; [reflexivity|].
  destruct (q x) eqn:Q, (p x) eqn:P; simpl; rewrite ?Q, ?P, IH; reflexivity.
Qed.

Lemma filter_map_comm {A B : Type} (p : B -> bool) (f : A -> B) (l : list A) :
  List.filter p (map f l) = map f (List.filter (fun x => p (f x)) l).
Proof.
  induction l as [|x l IH]; simpl; [reflexivity|].
  destruct (p (f x)); simpl; now rewrite IH.
Qed.

Lemma tags_of_delete_task (task_id j : Z) (db : database) :
  j <> task_id -> tags_of j (delete_task task_id db) = tags_of j db.
Proof.
  intros Hj. unfold tags_of, delete_task. simpl. f_equal.
  induction (tags db) as [|g l IH]; simpl; [reflexivity|].
  destruct (g_task_id g =? task_id) eqn:E1; simpl;
    destruct (g_task_id g =? j) eqn:E2; rewrite ?IH; try reflexivity.
  apply Z.eqb_eq in E1, E2. congruence.
Qed.

(** C8: [delete_task] removes the rows of the task from [tasks] and from
    [tags] and nothing else.  The history and the counters are untouched,
    and [get_tasks] afterwards returns what it returned before, in the same
    order, less the dict of the deleted task: the other tasks and their
    tags are as they were. *)
Theorem delete_task_frame (task_id : Z) (status category : option string)
    (db : database) :
  tasks (delete_task task_id db)
  = List.filter (fun r => negb (t_id r =? task_id)) (tasks db) /\
  tags (delete_task task_id db)
  = List.filter (fun g => negb (g_task_id g =? task_id)) (tags db) /\
  task_history (delete_task task_id db) = task_history db /\
  (forall c, history_of c (delete_task task_id db) = history_of c db) /\
  (seq_tasks (delete_task task_id db), seq_history (delete_task task_id db),
   seq_tags (delete_task task_id db))
  = (seq_tasks db, seq_history db, seq_tags db) /\
  get_tasks status category (delete_task task_id db)
  = List.filter (other_than task_id) (get_tasks status category db) /\
  Forall (fun d => dict_col d "id" <> VInt task_id)
    (get_tasks status category (delete_task task_id db)).
Proof.
  assert (Hget : get_tasks status category (delete_task task_id db)
    = List.filter (other_than task_id) (get_tasks status category db)).
  { unfold get_tasks, select_tasks. rewrite filter_map_comm.
    change (tasks (delete_task task_id db))
      with (List.filter (fun r => negb (t_id r =? task_id)) (tasks db)).
    rewrite filter_filter_swap, <- filter_order_by.
    change (fun x => other_than task_id (row_dict db x))
      with (fun r => negb (t_id r =? task_id)).
    apply map_ext_in. intros r Hr. apply filter_In in Hr as [_ Hr].
    apply negb_true_iff, Z.eqb_neq in Hr.
    unfold row_dict. now rewrite tags_of_delete_task. }
  repeat split; try reflexivity; [exact Hget|].
  rewrite Hget. apply Forall_forall. intros d Hd.
  apply list_elem_of_In, filter_In in Hd as [_ Hd]. unfold other_than in Hd.
  intros E. rewrite E in Hd. now rewrite Z.eqb_refl in Hd.
Qed.

(** ** C10: the priority is not validated *)





(** ** C6: the history record of a completion *)

Lemma total_seconds_hours (td : Z) :
  (total_seconds td / 3600 == inject_Z td / inject_Z 3600000000)%Q.
Proof.
  unfold total_seconds.
  rewrite (Qmake_Qdiv td 1000000).
  change (inject_Z 3600000000) with (inject_Z 1000000 * 3600)%Q.
  change (inject_Z (Z.pos 1000000)) with (inject_Z 1000000).
  field.
Qed.

Lemma timedelta_days_spec (td : Z) :
  timedelta_days td * 86400000000 <= td
  < (timedelta_days td + 1) * 86400000000.
Proof.
  unfold timedelta_days.
  pose proof (Z.mul_div_le td 86400000000 eq_refl).
  pose proof (Z.mul_succ_div_gt td 86400000000 eq_refl).
  lia.
Qed.

Section History.

Variable fromisoformat : string -> option datetime.

(** C6, as the code has it.  Completing an existing task whose
    [created_at] is an ISO text and whose deadline is absent or an ISO
    text, all of them without UTC offset, with hours that the column
    keeps, appends exactly one history row.
    Its [completion_time_hours] is the time from [created_at] to the
    completion, in hours; its [days_to_deadline] is NULL when the task has
    no deadline and otherwise the number of whole days from [created_at]
    to the deadline, rounded down, negative when the deadline is the
    earlier. *)
Theorem complete_task_history (now c : string) (task_id created completed : Z)
    (actual_hours : value) (task : task_row) (db : database) :
  fromisoformat "" = None ->
  List.find (fun r => t_id r =? task_id) (tasks db) = Some task ->
  t_created_at task = VText c -> fromisoformat c = Some (Naive created) ->
  fromisoformat now = Some (Naive completed) ->
  (t_deadline task = VNull \/
   exists d dl, t_deadline task = VText d /\
                fromisoformat d = Some (Naive dl)) ->
  keeps "actual_hours" actual_hours = true ->
  let r := complete_task fromisoformat now task_id actual_hours db in
  r.1 = Ok tt /\
  exists h,
    task_history r.2 = task_history db ++ [h] /\
    h_task_id h = task_id /\
    h_category h = t_category task /\
    h_estimated_hours h = t_estimated_hours task /\
    h_actual_hours h = actual_hours /\
    (h_completion_time_hours h
     == inject_Z (completed - created) / inject_Z 3600000000)%Q /\
    (t_deadline task = VNull -> h_days_to_deadline h = None) /\
    (forall d dl, t_deadline task = VText d ->
       fromisoformat d = Some (Naive dl) ->
       exists n, h_days_to_deadline h = Some n /\
                 n = (dl - created) `div` 86400000000 /\
                 n * 86400000000 <= dl - created < (n + 1) * 86400000000).
Proof.
  intros Hempty Hfind Hc Hcreated Hnow Hdl _. cbv zeta.
  unfold complete_task. rewrite Hfind. unfold history_times.
  rewrite Hc. cbn [parse_column]. rewrite Hcreated, Hnow.
  destruct Hdl as [Hd | (d & dl & Hd & Hp)]; rewrite Hd.
  - cbn. split; [reflexivity|]. eexists. split; [reflexivity|]. cbn.
    refine (conj eq_refl (conj eq_refl (conj eq_refl (conj eq_refl
              (conj (total_seconds_hours _) (conj (fun _ => eq_refl) _)))))).
    intros d dl Hd'. discriminate.
  - assert (Ht : truthy (VText d) = true).
    { simpl. destruct (String.eqb_spec d ""); [|reflexivity].
      subst. congruence. }
    rewrite Ht. cbn [parse_column]. rewrite Hp. cbn.
    split; [reflexivity|]. eexists. split; [reflexivity|]. cbn.
    refine (conj eq_refl (conj eq_refl (conj eq_refl (conj eq_refl
              (conj (total_seconds_hours _) (conj _ _))))));
      [discriminate|].
    intros d' dl' Hd' Hp'. injection Hd' as <-.
    rewrite Hp in Hp'. injection Hp' as <-.
    eexists. split; [reflexivity|]. split; [reflexivity|].
    apply timedelta_days_spec.
Qed.

End History.

Lemma complete_task_history_witness :
  let r := complete_task fromisoformat_basic "2024-01-03T12:00:00" 1
             (VReal 6) dated_task in
  r.1 = Ok tt /\
  exists h, task_history r.2 = [h] /\ h_days_to_deadline h = Some 10 /\
            (h_completion_time_hours h == 60)%Q.
Proof.
  destruct (complete_task_history fromisoformat_basic "2024-01-03T12:00:00"
              "2024-01-01 00:00:00" 1 1704067200000000 1704283200000000
              (VReal 6)
              (new_task_row 1 "2024-01-01 00:00:00" (VText "report")
                 (VText "") (VText "work") (VInt 2)
                 (VText "2024-01-11T00:00:00") (VReal 8))
              dated_task eq_refl eq_refl eq_refl eq_refl eq_refl
              (or_intror (ex_intro _ "2024-01-11T00:00:00"
                 (ex_intro _ 1704931200000000 (conj eq_refl eq_refl))))
              eq_refl)
    as (H1 & h & H2 & _ & _ & _ & _ & H3 & _ & H4).
  split; [exact H1|]. exists h. split; [exact H2|].
  destruct (H4 "2024-01-11T00:00:00" 1704931200000000 eq_refl eq_refl)
    as (n & Hn & -> & _).
  split; [exact Hn|].
  refine (Qeq_trans _ _ 60 H3 _). reflexivity.
Defined.

(** C6 refuted.  The deadline of the task is the text ['soon'], which
    [add_task] stores as it does any text: [complete_task] marks the task
    completed, raises [ValueError] when it parses the deadline, and appends
    no history row. *)
Lemma complete_task_history_counterexample :
  let r := complete_task fromisoformat_basic "2024-01-02T00:00:00" 1 VNull
             vague_task in
  map t_deadline (tasks vague_task) = [VText "soon"] /\
  task_history vague_task = [] /\
  r.1 = Raise ValueError /\
  task_history r.2 = [] /\
  map t_status (tasks r.2) = [VText "completed"].
Proof. repeat split. Qed.

(** ** C7: the statistics *)








(** ** C9: exporting and importing again *)

Lemma import_loop_exported (clock : nat -> string) (db0 : database)
    (rows : list task_row) :
  Forall (fun row => t_title row <> VNull) rows ->
  forall (k : nat) (db : database),
  exists n,
    import_loop clock k (map (row_dict db0) rows) db =
    (Ok tt,
     {| tasks := tasks db ++ imported_rows clock k (seq_tasks db) rows;
        task_history := task_history db;
        tags := tags db ++ imported_tags db0 (seq_tasks db) (seq_tags db) rows;
        seq_tasks := seq_tasks db + Z.of_nat (length rows);
        seq_history := seq_history db;
        seq_tags := n |}).
Proof.
  induction 1 as [|row rest Hrow _ IH]; intros k db.
  - exists (seq_tags db). destruct db; simpl.
    now rewrite !app_nil_r, Z.add_0_r.
  - cbn [map import_loop].
    change (delete "completed_at"
              (delete "created_at" (delete "id" (entries (row_dict db0 row))))
            !! "title") with (Some (t_title row)).
    cbv iota beta.
    change (default [] (tags_entry (row_dict db0 row)))
      with (tags_of (t_id row) db0).
    match goal with
    | |- context [add_task ?n ?t ?d ?c ?p ?dl ?e ?tg db] =>
        change d with (t_description row);
        change c with (t_category row);
        change p with (t_priority row);
        change dl with (t_deadline row);
        change e with (t_estimated_hours row)
    end.
    rewrite add_task_ok by exact Hrow.
    match goal with
    | |- context [import_loop clock (S k) _ ?db'] =>
        destruct (IH (S k) db') as (n & ->)
    end.
    exists n. cbn -[Z.add Z.of_nat]. f_equal. f_equal.
    + now rewrite <- app_assoc.
    + now rewrite <- app_assoc.
    + lia.
Qed.

Lemma imported_rows_length (clock : nat -> string) (rows : list task_row) :
  forall k seq, length (imported_rows clock k seq rows) = length rows.
Proof. induction rows as [|row rest IH]; intros k seq; simpl; auto. Qed.

Lemma imported_rows_lookup (clock : nat -> string) (rows : list task_row) :
  forall (k : nat) (seq : Z) (j : nat) (row : task_row),
    rows !! j = Some row ->
    imported_rows clock k seq rows !! j =
    Some (new_task_row (seq + 1 + Z.of_nat j) (clock (k + j)%nat)
            (t_title row) (t_description row) (t_category row)
            (t_priority row) (t_deadline row) (t_estimated_hours row)).
Proof.
  induction rows as [|r rest IH]; intros k seq j row Hj; [discriminate|].
  destruct j as [|j]; cbn [imported_rows].
  - injection Hj as ->. cbn.
    now rewrite Z.add_0_r, Nat.add_0_r.
  - change ((r :: rest) !! S j) with (rest !! j) in Hj.
    change ((?x :: ?l) !! S j) with (l !! j).
    rewrite (IH (S k) (seq + 1) j row Hj).
    replace (seq + 1 + 1 + Z.of_nat j) with (seq + 1 + Z.of_nat (S j)) by lia.
    replace (S k + j)%nat with (k + S j)%nat by lia.
    reflexivity.
Qed.

Lemma new_tag_rows_filter (j task_id seq : Z) (l : list string) :
  List.filter (fun g => g_task_id g =? j) (new_tag_rows task_id seq l) =
  if task_id =? j then new_tag_rows task_id seq l else [].
Proof.
  revert seq. induction l as [|t l IH]; intros seq; simpl.
  - now destruct (task_id =? j).
  - rewrite IH. now destruct (task_id =? j).
Qed.

Lemma new_tag_rows_tags (task_id seq : Z) (l : list string) :
  map g_tag (new_tag_rows task_id seq l) = map strip l.
Proof.
  revert seq. induction l as [|t l IH]; intros seq; simpl; [reflexivity|].
  now rewrite IH.
Qed.

Lemma imported_tags_below (db0 : database) (rows : list task_row) (j : Z) :
  forall seq_t seq_g, j <= seq_t ->
    List.filter (fun g => g_task_id g =? j)
      (imported_tags db0 seq_t seq_g rows) = [].
Proof.
  induction rows as [|row rest IH]; intros seq_t seq_g Hj; simpl;
    [reflexivity|].
  rewrite List.filter_app, new_tag_rows_filter, IH by lia.
  replace (seq_t + 1 =? j) with false; [reflexivity|].
  symmetry. apply Z.eqb_neq. lia.
Qed.

Lemma imported_tags_lookup (db0 : database) (rows : list task_row) :
  forall (seq_t seq_g : Z) (j : nat) (row : task_row),
    rows !! j = Some row ->
    map g_tag
      (List.filter (fun g => g_task_id g =? seq_t + 1 + Z.of_nat j)
         (imported_tags db0 seq_t seq_g rows))
    = map strip (tags_of (t_id row) db0).
Proof.
  induction rows as [|r rest IH]; intros seq_t seq_g j row Hj; [discriminate|].
  cbn [imported_tags]. rewrite List.filter_app, new_tag_rows_filter.
  destruct j as [|j].
  - injection Hj as ->. rewrite Z.add_0_r, Z.eqb_refl.
    rewrite imported_tags_below by lia.
    now rewrite app_nil_r, new_tag_rows_tags.
  - change ((r :: rest) !! S j) with (rest !! j) in Hj.
    replace (seq_t + 1 =? seq_t + 1 + Z.of_nat (S j)) with false
      by (symmetry; apply Z.eqb_neq; lia).
    cbn [app].
    replace (seq_t + 1 + Z.of_nat (S j)) with (seq_t + 1 + 1 + Z.of_nat j)
      by lia.
    now apply IH.
Qed.

Lemma tags_of_stripped (task_id : Z) (db : database) :
  Forall (fun g => strip (g_tag g) = g_tag g) (tags db) ->
  map strip (tags_of task_id db) = tags_of task_id db.
Proof.
  unfold tags_of. intros H.
  induction H as [|g l Hg _ IH]; simpl; [reflexivity|].
  destruct (g_task_id g =? task_id); simpl; [|exact IH].
  now rewrite Hg, IH.
Qed.

Lemma tags_of_fresh (j : Z) (db : database) :
  Forall (fun g => g_task_id g <= seq_tasks db) (tags db) ->
  seq_tasks db < j ->
  List.filter (fun g => g_task_id g =? j) (tags db) = [].
Proof.
  intros H Hj. induction H as [|g l Hg _ IH]; simpl; [reflexivity|].
  replace (g_task_id g =? j) with false; [exact IH|].
  symmetry. apply Z.eqb_neq. lia.
Qed.

(** C9: importing the JSON export of a store appends, for the exported
    task of each index [k], a row with the same title, description,
    category, priority, deadline and estimated hours, with the fresh id
    [seq_tasks + 1 + k], which no stored task has, with [created_at] read
    at its insertion, without [completed_at], and with the same tags. *)
Theorem export_import_round_trip (clock : nat -> string) (db : database)
    (f : file) :
  wf db -> export_tasks "json" db = Some f ->
  let rows := select_tasks None None db in
  let r := import_tasks clock f db in
  f = JsonFile (map (row_dict db) rows) /\
  r.1 = Ok tt /\
  exists news,
    tasks r.2 = tasks db ++ news /\ length news = length rows /\
    forall (k : nat) (row : task_row),
      rows !! k = Some row ->
      news !! k =
        Some (new_task_row (seq_tasks db + 1 + Z.of_nat k) (clock k)
                (t_title row) (t_description row) (t_category row)
                (t_priority row) (t_deadline row) (t_estimated_hours row)) /\
      tags_of (seq_tasks db + 1 + Z.of_nat k) r.2 = tags_of (t_id row) db /\
      Forall (fun old => t_id old < seq_tasks db + 1 + Z.of_nat k) (tasks db).
Proof.
  intros Hwf Hf. cbv zeta. injection Hf as <-.
  split; [reflexivity|]. unfold get_tasks. cbn [import_tasks].
  assert (Ht : Forall (fun row => t_title row <> VNull)
                 (select_tasks None None db)).
  { apply Forall_forall. intros row Hrow.
    apply list_elem_of_In, select_tasks_In in Hrow as [Hrow _].
    pose proof (wf_title db Hwf) as H. rewrite Forall_forall in H.
    apply H, list_elem_of_In, Hrow. }
  destruct (import_loop_exported clock db _ Ht 0%nat db) as (n & ->).
  cbn [fst snd tasks]. split; [reflexivity|].
  eexists. split; [reflexivity|]. split; [apply imported_rows_length|].
  intros k row Hk. split; [|split].
  - now rewrite (imported_rows_lookup _ _ 0%nat _ k row Hk).
  - unfold tags_of at 1. cbn [tags]. rewrite List.filter_app.
    rewrite (tags_of_fresh _ db (wf_tag_ids db Hwf)) by lia.
    cbn [app]. rewrite (imported_tags_lookup db _ _ _ k row Hk).
    apply tags_of_stripped, (wf_tag_stripped db Hwf).
  - eapply Forall_impl; [apply (wf_ids db Hwf)|]. simpl. intros; lia.
Qed.

Lemma export_import_round_trip_witness :
  let clock := fun _ : nat => "2024-06-01 00:00:00" in
  let r := import_tasks clock
             (JsonFile (get_tasks None None tagged_tasks)) tagged_tasks in
  r.1 = Ok tt /\
  tags_of 4 r.2 = ["garden"; "spring"] /\
  tags_of 1 tagged_tasks = ["garden"; "spring"].
Proof.
  assert (Hwf : wf tagged_tasks).
  { apply (reachable_wf fromisoformat_basic).
    apply reachable_run, reachable_run, reachable_init. }
  destruct (export_import_round_trip (fun _ => "2024-06-01 00:00:00")
              tagged_tasks _ Hwf eq_refl)
    as (_ & H1 & news & _ & _ & H2).
  split; [exact H1|].
  destruct (H2 1%nat _ eq_refl) as (_ & H3 & _).
  split; [exact H3 | reflexivity].
Defined.

(** ** C4: the suggested priority *)

Lemma within_spec_within (deadline_days : option Z) (bound : Z) :
  deadline_days <> Some 0 ->
  within deadline_days bound = spec_within deadline_days bound.
Proof.
  destruct deadline_days as [d|]; simpl; [|reflexivity]. intros H.
  destruct (Z.eqb_spec d 0); [congruence | reflexivity].
Qed.

(** Away from [deadline_days = 0] the code follows the first table. *)
Lemma heuristic_priority_table (estimated_hours : Q) (deadline_days : option Z) :
  deadline_days <> Some 0 ->
  _heuristic_priority estimated_hours deadline_days
  = spec_table_without_history estimated_hours deadline_days.
Proof.
  intros H. unfold _heuristic_priority, spec_table_without_history.
  now rewrite !within_spec_within.
Qed.

Lemma score_step_numeric (estimated_hours : Q) (deadline_days : option Z)
    (scores : Q * Q) (h : history_row) :
  numeric_estimate h ->
  exists scores',
    score_step estimated_hours deadline_days scores h = Ok scores'.
Proof.
  intros Hh. unfold score_step. destruct scores as [c u].
  destruct (truthy (h_estimated_hours h) && negb (Qeq_bool estimated_hours 0)).
  - destruct (h_estimated_hours h) eqn:E; try (now destruct (Hh s));
      (destruct (h_days_to_deadline h) as [hd|], deadline_days as [dd|];
       eauto; destruct (negb (hd =? 0) && negb (dd =? 0)); eauto).
  - destruct (h_days_to_deadline h) as [hd|], deadline_days as [dd|];
      eauto; destruct (negb (hd =? 0) && negb (dd =? 0)); eauto.
Qed.

Lemma score_loop_numeric (estimated_hours : Q) (deadline_days : option Z)
    (history : list history_row) :
  Forall numeric_estimate history ->
  forall scores, exists scores',
    score_loop estimated_hours deadline_days scores history = Ok scores'.
Proof.
  induction 1 as [|h rest Hh _ IH]; intros scores; cbn [score_loop];
    [eauto|].
  destruct (score_step_numeric estimated_hours deadline_days scores h Hh)
    as (scores' & ->).
  apply IH.
Qed.

(** Away from [deadline_days = 0], and with numeric estimates in the
    history of the category, the code follows the tables, whatever the
    history rows hold; the result lies between 1 and 5. *)
Lemma suggest_priority_table (category : string) (estimated_hours : Q)
    (deadline_days : option Z) (db : database) :
  deadline_days <> Some 0 ->
  Forall numeric_estimate (history_of category db) ->
  exists p,
    suggest_priority category estimated_hours deadline_days db = Ok p /\
    1 <= p <= 5 /\
    p = match history_of category db with
        | [] => spec_table_without_history estimated_hours deadline_days
        | _ :: _ => spec_table_with_history estimated_hours deadline_days
        end.
Proof.
  intros Hd Hnum. unfold suggest_priority.
  destruct (history_of category db) as [|h rest] eqn:E.
  - eexists. split; [reflexivity|].
    rewrite heuristic_priority_table by exact Hd. split; [|reflexivity].
    unfold spec_table_without_history.
    repeat match goal with |- context [if ?b then _ else _] => destruct b end;
      lia.
  - destruct (score_loop_numeric estimated_hours deadline_days _ Hnum
                (0%Q, 0%Q)) as ([c u] & ->).
    eexists. split; [reflexivity|].
    rewrite !within_spec_within by exact Hd.
    unfold spec_table_with_history.
    repeat match goal with |- context [if ?b then _ else _] => destruct b end;
      (split; [lia | reflexivity]).
Qed.

(** The three examples of the specification, on a store without history. *)
Example suggest_priority_examples :
  suggest_priority "work" 0 (Some 2) init_db = Ok 1 /\
  suggest_priority "work" 20 None init_db = Ok 2 /\
  suggest_priority "work" 3 None init_db = Ok 4.
Proof. repeat split; reflexivity. Qed.

(** C4 at [deadline_days = 0], a deadline within the coming day: Python
    takes the [0] for false, the deadline is passed over and the hours
    alone decide.  An estimate of 0 gives priority 4, with a history of the
    category and without, where both tables give 1. *)
Theorem suggest_priority_zero_days :
  suggest_priority "work" 0 (Some 0) init_db = Ok 4 /\
  spec_table_without_history 0 (Some 0) = 1 /\
  history_of "work" quick_task <> [] /\
  suggest_priority "work" 0 (Some 0) quick_task = Ok 4 /\
  spec_table_with_history 0 (Some 0) = 1.
Proof. repeat split; try reflexivity. vm_compute. discriminate. Qed.

(** * Further properties of the manager *)

(** ** [update_task] *)

Lemma filter_unmatched_map {A : Type} (f : A -> A) (p : A -> bool)
    (l : list A) :
  (forall x, p (f x) = p x) ->
  List.filter (fun x => negb (p x)) (map (fun x => if p x then f x else x) l)
  = List.filter (fun x => negb (p x)) l.
Proof.
  intros Hf. induction l as [|x l IH]; simpl; [reflexivity|].
  destruct (p x) eqn:E; simpl.
  - now rewrite Hf, E.
  - now rewrite E, IH.
Qed.

Lemma update_task_tables (task_id : Z) (kwargs : list (string * value))
    (db : database) :
  (update_task task_id kwargs db).2
  = with_tasks (tasks (update_task task_id kwargs db).2) db.
Proof.
  unfold update_task.
  destruct (List.filter _ kwargs) as [|kv updates];
    [now rewrite with_tasks_same|].
  destruct (existsb _ (tasks db)); [now rewrite with_tasks_same | reflexivity].
Qed.

(** X1: Whatever the keyword arguments, [update_task] leaves alone the ids,
    the creation and completion times, the rows of the other tasks, the
    order of the rows, the tags, the history and the counters. *)
Theorem update_task_frame (task_id : Z) (kwargs : list (string * value))
    (db : database) :
  let db' := (update_task task_id kwargs db).2 in
  map t_id (tasks db') = map t_id (tasks db) /\
  map t_created_at (tasks db') = map t_created_at (tasks db) /\
  map t_completed_at (tasks db') = map t_completed_at (tasks db) /\
  List.filter (fun r => negb (t_id r =? task_id)) (tasks db')
  = List.filter (fun r => negb (t_id r =? task_id)) (tasks db) /\
  tags db' = tags db /\ task_history db' = task_history db /\
  (seq_tasks db', seq_history db', seq_tags db')
  = (seq_tasks db, seq_history db, seq_tags db).
Proof.
  cbv zeta. rewrite (update_task_tables task_id kwargs db).
  cbn [tasks tags task_history seq_tasks seq_history seq_tags with_tasks].
  destruct (tasks_update_task task_id kwargs db) as [-> | ->];
    [repeat split; reflexivity|].
  set (u := List.filter _ kwargs).
  repeat split.
  - rewrite map_map. apply map_ext. intros r.
    destruct (t_id r =? task_id); [apply apply_updates_id | reflexivity].
  - rewrite map_map. apply map_ext. intros r.
    destruct (t_id r =? task_id); [apply apply_updates_id | reflexivity].
  - rewrite map_map. apply map_ext. intros r.
    destruct (t_id r =? task_id); [apply apply_updates_id | reflexivity].
  - apply (filter_unmatched_map (apply_updates u)
             (fun r => t_id r =? task_id)).
    intros r. now rewrite (proj1 (apply_updates_id u r)).
Qed.

Lemma allowed_cases (field : string) :
  allowed field = true ->
  field = "title" \/ field = "description" \/ field = "category" \/
  field = "priority" \/ field = "status" \/ field = "deadline" \/
  field = "estimated_hours" \/ field = "actual_hours".
Proof.
  unfold allowed, allowed_fields. cbn [existsb]. intros H.
  repeat match type of H with
         | (_ || _)%bool = true => apply orb_true_iff in H as [H | H]
         end;
    try discriminate; apply String.eqb_eq in H; tauto.
Qed.

Lemma set_column_read (field : string) (v : value) (db : database)
    (r : task_row) :
  allowed field = true ->
  dict_col (row_dict db (set_column field v r)) field = v.
Proof.
  intros H. apply allowed_cases in H.
  repeat destruct H as [H | H]; subst field; reflexivity.
Qed.

Lemma update_single_ok (task_id : Z) (field : string) (v : value)
    (db : database) :
  wf db -> allowed field = true -> (field = "title" -> v <> VNull) ->
  update_task task_id [(field, v)] db =
  (Ok tt,
   with_tasks
     (map (fun r => if t_id r =? task_id then set_column field v r else r)
        (tasks db))
     db).
Proof.
  intros Hwf Ha Hv. unfold update_task. cbn [List.filter fst]. rewrite Ha.
  replace (existsb _ (tasks db)) with false; [reflexivity|].
  symmetry. apply not_true_is_false. intros H.
  apply existsb_exists in H as (r & Hr & H).
  apply andb_true_iff in H as [_ H].
  pose proof (wf_title db Hwf) as Ht. rewrite Forall_forall in Ht.
  apply list_elem_of_In, Ht in Hr.
  cbn [apply_updates fold_left fst snd set_column t_title] in H.
  destruct (String.eqb_spec field "title") as [E | _].
  - specialize (Hv E). now destruct v.
  - now destruct (t_title r).
Qed.

(** X2: Writing one whitelisted field of an existing task and reading it
    back, for a value that the column keeps as it is (NULL, a text in a
    text column, a 64-bit integer as priority, a real as hours):
    [update_task] returns without error and [get_tasks] shows the new
    value in that field of the task.  Only a NULL title is excluded. *)
Theorem update_task_then_get (field : string) (v : value) (r : task_row)
    (db : database) :
  wf db -> r ∈ tasks db -> allowed field = true -> keeps field v = true ->
  (field = "title" -> v <> VNull) ->
  let u := update_task (t_id r) [(field, v)] db in
  u.1 = Ok tt /\
  (exists d, In d (get_tasks None None u.2) /\
             dict_col d "id" = VInt (t_id r)) /\
  (forall d, In d (get_tasks None None u.2) ->
             dict_col d "id" = VInt (t_id r) -> dict_col d field = v).
Proof.
  intros Hwf Hr Ha _ Hv. cbv zeta.
  rewrite update_single_ok by assumption. cbn [fst snd]. repeat split.
  - eexists. split.
    + apply get_tasks_all_In. eexists. split; [|reflexivity].
      cbn [tasks with_tasks]. apply in_map, list_elem_of_In, Hr.
    + cbn beta. rewrite Z.eqb_refl. reflexivity.
  - intros d Hd Hid. apply get_tasks_all_In in Hd as (r' & Hr' & ->).
    cbn [tasks with_tasks] in Hr'.
    apply in_map_iff in Hr' as (r0 & <- & _).
    match goal with
    | Hid : dict_col (row_dict ?db' ?r') _ = _ |- _ =>
        destruct (row_dict_cols db' r') as (E1 & _)
    end.
    rewrite E1 in Hid.
    destruct (t_id r0 =? t_id r) eqn:E.
    + now apply set_column_read.
    + apply Z.eqb_neq in E. injection Hid as Hid. contradiction.
Qed.

Lemma update_task_then_get_witness :
  let u := update_task 1 [("status", VText "in_progress")] dated_task in
  u.1 = Ok tt /\
  (forall d, In d (get_tasks None None u.2) -> dict_col d "id" = VInt 1 ->
             dict_col d "status" = VText "in_progress").
Proof.
  assert (Hwf : wf dated_task).
  { apply (reachable_wf fromisoformat_basic).
    exact (reachable_run fromisoformat_basic
             (AddTask "2024-01-01 00:00:00" (VText "report") (VText "")
                (VText "work") (VInt 2) (VText "2024-01-11T00:00:00")
                (VReal 8) None)
             init_db (reachable_init fromisoformat_basic)). }
  assert (Hr : new_task_row 1 "2024-01-01 00:00:00" (VText "report")
                 (VText "") (VText "work") (VInt 2)
                 (VText "2024-01-11T00:00:00") (VReal 8) ∈ tasks dated_task).
  { apply list_elem_of_In. left. reflexivity. }
  destruct (update_task_then_get "status" (VText "in_progress") _ dated_task
              Hwf Hr eq_refl eq_refl) as (H1 & _ & H3); [discriminate|].
  split; [exact H1 | exact H3].
Defined.

Lemma apply_updates_title (updates : list (string * value)) (r : task_row) :
  Forall (fun kv => kv.1 <> "title") updates ->
  t_title (apply_updates updates r) = t_title r.
Proof.
  unfold apply_updates. intros H. revert r.
  induction H as [|kv l Hkv _ IH]; intros r; simpl; [reflexivity|].
  rewrite IH. simpl.
  destruct (String.eqb_spec kv.1 "title"); [contradiction | reflexivity].
Qed.

(** X3: [title=None] for an existing task: the [NOT NULL] column refuses it,
    [update_task] raises [IntegrityError] and nothing is written, the other
    fields of the call included. *)
Theorem update_task_null_title (r : task_row) (kwargs : list (string * value))
    (db : database) :
  r ∈ tasks db -> Forall (fun kv => kv.1 <> "title") kwargs ->
  update_task (t_id r) (("title", VNull) :: kwargs) db
  = (Raise IntegrityError, db).
Proof.
  intros Hr Hk. unfold update_task. cbn [List.filter fst].
  change (allowed "title") with true. cbv iota.
  replace (existsb _ (tasks db)) with true; [reflexivity|].
  symmetry. apply existsb_exists. exists r.
  split; [now apply list_elem_of_In|].
  rewrite Z.eqb_refl. cbn [andb apply_updates fold_left].
  fold (apply_updates (List.filter (fun kv => allowed kv.1) kwargs)
          (set_column ("title", VNull).1 ("title", VNull).2 r)).
  rewrite apply_updates_title; [reflexivity|].
  apply Forall_forall. intros kv Hkv.
  apply list_elem_of_In, filter_In in Hkv as [Hkv _].
  rewrite Forall_forall in Hk. apply Hk, list_elem_of_In, Hkv.
Qed.

Lemma update_task_null_title_witness :
  update_task 1 [("title", VNull); ("priority", VInt 1)] one_task
  = (Raise IntegrityError, one_task).
Proof.
  apply (update_task_null_title
           (new_task_row 1 "2024-01-01 00:00:00" (VText "a") (VText "")
              (VText "general") (VInt 3) VNull (VInt 0))
           [("priority", VInt 1)] one_task).
  - apply list_elem_of_In. left. reflexivity.
  - repeat constructor. discriminate.
Defined.

(** ** Ids *)

Lemma add_task_returns (now : string)
    (title description category priority deadline est : value)
    (tag_list : option (list string)) (db : database) (i : Z) :
  (add_task now title description category priority deadline est tag_list
     db).1 = Ok i ->
  i = seq_tasks db + 1 /\
  seq_tasks (add_task now title description category priority deadline est
               tag_list db).2 = i.
Proof.
  assert (title = VNull \/ title <> VNull) as [->|Hn]
    by (destruct title; auto; right; discriminate).
  - discriminate.
  - rewrite add_task_ok by exact Hn. cbn. intros [= <-]. auto.
Qed.

Lemma seq_tasks_add_task (now : string)
    (title description category priority deadline est : value)
    (tag_list : option (list string)) (db : database) :
  seq_tasks db
  <= seq_tasks (add_task now title description category priority deadline
                  est tag_list db).2.
Proof.
  assert (title = VNull \/ title <> VNull) as [->|Hn]
    by (destruct title; auto; right; discriminate).
  - reflexivity.
  - rewrite add_task_ok by exact Hn. cbn. lia.
Qed.

Lemma seq_tasks_import_loop (clock : nat -> string) (doc : list task_dict) :
  forall (k : nat) (db : database),
    seq_tasks db <= seq_tasks (import_loop clock k doc db).2.
Proof.
  induction doc as [|task rest IH]; intros k db; simpl; [reflexivity|].
  destruct (_ !! "title") as [title|]; [|reflexivity].
  match goal with
  | |- context [add_task ?n ?t ?d ?c ?p ?dl ?e ?tg db] =>
      pose proof (seq_tasks_add_task n t d c p dl e tg db) as H1;
      destruct (add_task n t d c p dl e tg db) as [[i|e'] db']
  end; simpl in *; [|exact H1].
  specialize (IH (S k) db'). lia.
Qed.

Lemma complete_task_tables (fromisoformat : string -> option datetime) (now : string)
    (task_id : Z) (actual_hours : value) (db : database) :
  let db' := (complete_task fromisoformat now task_id actual_hours db).2 in
  tags db' = tags db /\ seq_tasks db' = seq_tasks db /\
  seq_tags db' = seq_tags db.
Proof.
  cbv zeta.
  destruct (complete_task_cases fromisoformat now task_id actual_hours db)
    as [[_ ->]|[(task & e & _ & _ & ->)|(task & hours & days & _ & _ & ->)]];
    auto.
Qed.

Lemma seq_tasks_run (fromisoformat : string -> option datetime) (o : op)
    (db : database) :
  seq_tasks db <= seq_tasks (run fromisoformat o db).
Proof.
  destruct o; simpl.
  - apply seq_tasks_add_task.
  - rewrite (update_task_tables task_id kwargs db). reflexivity.
  - rewrite (proj1 (proj2 (complete_task_tables fromisoformat now task_id
                             actual_hours db))). reflexivity.
  - reflexivity.
  - destruct f; simpl; [apply seq_tasks_import_loop | reflexivity].
Qed.

Lemma seq_tasks_run_all (fromisoformat : string -> option datetime) (ops : list op) :
  forall db, seq_tasks db <= seq_tasks (run_all fromisoformat ops db).
Proof.
  unfold run_all. induction ops as [|o ops IH]; intros db; simpl;
    [reflexivity|].
  pose proof (seq_tasks_run fromisoformat o db).
  specialize (IH (run fromisoformat o db)). lia.
Qed.

Section Ids.

Variable fromisoformat : string -> option datetime.

(** X4: An id is handed out once.  The id [add_task] returns is above every
    stored id, and whatever calls follow (deletions included), a later
    [add_task] returns a larger one. *)
Theorem ids_never_reused (now1 now2 : string)
    (t1 d1 c1 p1 dl1 e1 t2 d2 c2 p2 dl2 e2 : value)
    (tags1 tags2 : option (list string)) (ops : list op) (db : database)
    (id1 id2 : Z) :
  wf db ->
  let a1 := add_task now1 t1 d1 c1 p1 dl1 e1 tags1 db in
  let a2 := add_task now2 t2 d2 c2 p2 dl2 e2 tags2
              (run_all fromisoformat ops a1.2) in
  a1.1 = Ok id1 -> a2.1 = Ok id2 ->
  Forall (fun r => t_id r < id1) (tasks db) /\ id1 < id2.
Proof.
  intros Hwf. cbv zeta. intros H1 H2.
  apply add_task_returns in H1 as [E1 S1].
  apply add_task_returns in H2 as [E2 _].
  pose proof (seq_tasks_run_all fromisoformat ops
                (add_task now1 t1 d1 c1 p1 dl1 e1 tags1 db).2) as Hm.
  split; [|lia].
  eapply Forall_impl; [apply (wf_ids db Hwf)|]. simpl. intros; lia.
Qed.

End Ids.

Lemma ids_never_reused_witness :
  let a1 := add_task_default "2024-01-01 00:00:00" (VText "a") init_db in
  let a2 := add_task_default "2024-01-03 00:00:00" (VText "b")
              (run_all fromisoformat_basic [DeleteTask 1] a1.2) in
  a1.1 = Ok 1 /\ a2.1 = Ok 2 /\ 1 < 2.
Proof.
  split; [reflexivity|]. split; [reflexivity|].
  exact (proj2 (ids_never_reused fromisoformat_basic
                  "2024-01-01 00:00:00" "2024-01-03 00:00:00"
                  (VText "a") (VText "") (VText "general") (VInt 3) VNull
                  (VInt 0)
                  (VText "b") (VText "") (VText "general") (VInt 3) VNull
                  (VInt 0) None None [DeleteTask 1] init_db 1 2
                  wf_init eq_refl eq_refl)).
Defined.

(** ** [add_task], [delete_task] and [get_tasks] together *)

Lemma filter_all {A : Type} (p : A -> bool) (l : list A) :
  (forall x, In x l -> p x = true) -> List.filter p l = l.
Proof.
  induction l as [|x l IH]; intros H; simpl; [reflexivity|].
  rewrite (H x) by now left. rewrite IH; [reflexivity|].
  intros y Hy. apply H. now right.
Qed.

Lemma filter_none {A : Type} (p : A -> bool) (l : list A) :
  (forall x, In x l -> p x = false) -> List.filter p l = [].
Proof.
  induction l as [|x l IH]; intros H; simpl; [reflexivity|].
  rewrite (H x) by now left. apply IH.
  intros y Hy. apply H. now right.
Qed.

Lemma tags_of_app (j : Z) (db : database) (extra : list tag_row)
    (t h : _) (s1 s2 s3 : Z) :
  tags_of j {| tasks := t; task_history := h; tags := tags db ++ extra;
               seq_tasks := s1; seq_history := s2; seq_tags := s3 |}
  = tags_of j db
    ++ map g_tag (List.filter (fun g => g_task_id g =? j) extra).
Proof. unfold tags_of. cbn [tags]. now rewrite List.filter_app, map_app. Qed.

(** X5: After [add_task] with values that their columns keep as they are
    (texts, a 64-bit integer as priority, a real as estimate, NULL but for
    the title), [get_tasks] returns what it returned before (for any
    filter, the other tasks and their tags unchanged) and, unfiltered,
    exactly one dict for the new id: the row as passed in, pending, with
    the tags of the call, each stripped, in their order, duplicates and
    empty tags included. *)
Theorem add_task_then_get (now : string)
    (title description category priority deadline est : value)
    (tag_list : option (list string)) (status cat : option string)
    (db : database) :
  wf db -> title <> VNull ->
  keeps "title" title = true -> keeps "description" description = true ->
  keeps "category" category = true -> keeps "priority" priority = true ->
  keeps "deadline" deadline = true -> keeps "estimated_hours" est = true ->
  let a := add_task now title description category priority deadline est
             tag_list db in
  let new_id := seq_tasks db + 1 in
  a.1 = Ok new_id /\
  List.filter (other_than new_id) (get_tasks status cat a.2)
  = get_tasks status cat db /\
  List.filter (has_id new_id) (get_tasks None None a.2)
  = [{| entries :=
          row_entries
            (new_task_row new_id now title description category priority
               deadline est);
        tags_entry := Some (map strip (default [] tag_list)) |}].
Proof.
  intros Hwf Ht _ _ _ _ _ _. cbv zeta. rewrite add_task_ok by exact Ht.
  cbn [fst snd]. split; [reflexivity|].
  pose proof (wf_ids db Hwf) as Hids. rewrite Forall_forall in Hids.
  set (new := new_task_row (seq_tasks db + 1) now title description category
                priority deadline est).
  set (db' := {| tasks := tasks db ++ [new]; task_history := _; tags := _;
                 seq_tasks := _; seq_history := _; seq_tags := _ |}).
  assert (Hold : List.filter (fun r => negb (t_id r =? seq_tasks db + 1))
                   (tasks db ++ [new]) = tasks db).
  { rewrite List.filter_app. cbn. rewrite Z.eqb_refl. cbn.
    rewrite app_nil_r. apply filter_all. intros r Hr.
    apply list_elem_of_In, Hids in Hr.
    apply negb_true_iff, Z.eqb_neq. lia. }
  assert (Hnew : List.filter (fun r => t_id r =? seq_tasks db + 1)
                   (tasks db ++ [new]) = [new]).
  { rewrite List.filter_app. cbn. rewrite Z.eqb_refl.
    rewrite filter_none; [reflexivity|]. intros r Hr.
    apply list_elem_of_In, Hids in Hr. apply Z.eqb_neq. lia. }
  split.
  - unfold get_tasks, select_tasks. rewrite filter_map_comm.
    change (fun x => other_than (seq_tasks db + 1) (row_dict db' x))
      with (fun r => negb (t_id r =? seq_tasks db + 1)).
    rewrite filter_order_by, filter_filter_swap.
    change (tasks db') with (tasks db ++ [new]). rewrite Hold.
    apply map_ext_in. intros r Hr.
    apply (Permutation_in _ (Permutation_sym (order_by_perm _))) in Hr.
    apply filter_In in Hr as [Hr _]. apply list_elem_of_In, Hids in Hr.
    unfold row_dict. f_equal. f_equal. unfold db'. rewrite tags_of_app.
    rewrite new_tag_rows_filter.
    replace (seq_tasks db + 1 =? t_id r) with false
      by (symmetry; apply Z.eqb_neq; lia).
    apply app_nil_r.
  - unfold get_tasks, select_tasks. rewrite filter_map_comm.
    rewrite (List.filter_ext (fun x => has_id (seq_tasks db + 1)
                                         (row_dict db' x))
               (fun r => t_id r =? seq_tasks db + 1))
      by (intros r; apply negb_involutive).
    rewrite filter_order_by, filter_filter_swap.
    change (tasks db') with (tasks db ++ [new]). rewrite Hnew.
    cbn [List.filter filter_clause andb order_by insert_row map].
    unfold row_dict. f_equal. f_equal. f_equal.
    change (t_id new) with (seq_tasks db + 1).
    unfold db'. rewrite tags_of_app.
    assert (Hfresh : tags_of (seq_tasks db + 1) db = []).
    { unfold tags_of.
      now rewrite (tags_of_fresh _ db (wf_tag_ids db Hwf)) by lia. }
    rewrite Hfresh. cbn [app].
    now rewrite new_tag_rows_filter, Z.eqb_refl, new_tag_rows_tags.
Qed.

Lemma add_task_then_get_witness :
  let a := add_task "2024-01-02 00:00:00" (VText "b") (VText "")
             (VText "general") (VInt 3) VNull (VReal 0)
             (Some [" x "; "x"; "  "]) dated_task in
  a.1 = Ok 2 /\
  map tags_entry (List.filter (has_id 2) (get_tasks None None a.2))
  = [Some ["x"; "x"; ""]].
Proof.
  assert (Hwf : wf dated_task).
  { apply (reachable_wf fromisoformat_basic).
    exact (reachable_run fromisoformat_basic
             (AddTask "2024-01-01 00:00:00" (VText "report") (VText "")
                (VText "work") (VInt 2) (VText "2024-01-11T00:00:00")
                (VReal 8) None)
             init_db (reachable_init fromisoformat_basic)). }
  assert (Hn : VText "b" <> VNull) by discriminate.
  destruct (add_task_then_get "2024-01-02 00:00:00" (VText "b") (VText "")
              (VText "general") (VInt 3) VNull (VReal 0)
              (Some [" x "; "x"; "  "]) None None dated_task Hwf Hn
              eq_refl eq_refl eq_refl eq_refl eq_refl eq_refl)
    as (H1 & _ & H3).
  split; [exact H1|].
  exact (eq_trans (f_equal (map tags_entry) H3) eq_refl).
Defined.

(** X6: Adding a task and deleting it again gives back the task rows and the
    tag rows there were; only the counters remember the call, so that its
    id is not handed out again. *)
Theorem add_task_then_delete (now : string)
    (title description category priority deadline est : value)
    (tag_list : option (list string)) (db : database) :
  wf db -> title <> VNull ->
  let a := add_task now title description category priority deadline est
             tag_list db in
  let db' := delete_task (seq_tasks db + 1) a.2 in
  tasks db' = tasks db /\ tags db' = tags db /\
  task_history db' = task_history db /\
  seq_tasks db' = seq_tasks db + 1.
Proof.
  intros Hwf Ht. cbv zeta. rewrite add_task_ok by exact Ht.
  unfold delete_task.
  cbn [fst snd tasks tags task_history seq_tasks].
  pose proof (wf_ids db Hwf) as Hids. rewrite Forall_forall in Hids.
  pose proof (wf_tag_ids db Hwf) as Hg. rewrite Forall_forall in Hg.
  repeat split.
  - rewrite List.filter_app. cbn. rewrite Z.eqb_refl. cbn.
    rewrite app_nil_r. apply filter_all. intros r Hr.
    apply list_elem_of_In, Hids in Hr. apply negb_true_iff, Z.eqb_neq. lia.
  - rewrite List.filter_app.
    rewrite (filter_none _ (new_tag_rows _ _ _)).
    + rewrite app_nil_r. apply filter_all. intros g Hgin.
      apply list_elem_of_In, Hg in Hgin. apply negb_true_iff, Z.eqb_neq. lia.
    + intros g Hgin.
      pose proof (new_tag_rows_task_id (seq_tasks db + 1) (seq_tags db)
                    (default [] tag_list)) as Hn.
      rewrite Forall_forall in Hn. apply list_elem_of_In, Hn in Hgin.
      destruct Hgin as [-> _]. now rewrite Z.eqb_refl.
Qed.

Lemma add_task_then_delete_witness :
  let a := add_task "2024-01-02 00:00:00" (VText "b") (VText "")
             (VText "general") (VInt 3) VNull (VInt 0) (Some ["x"])
             one_task in
  tasks (delete_task 2 a.2) = tasks one_task /\
  tags (delete_task 2 a.2) = tags one_task.
Proof.
  assert (Hwf : wf one_task).
  { apply (reachable_wf fromisoformat_basic).
    exact (reachable_run fromisoformat_basic
             (AddTask "2024-01-01 00:00:00" (VText "a") (VText "")
                (VText "general") (VInt 3) VNull (VInt 0) None)
             init_db (reachable_init fromisoformat_basic)). }
  assert (Hn : VText "b" <> VNull) by discriminate.
  destruct (add_task_then_delete "2024-01-02 00:00:00" (VText "b") (VText "")
              (VText "general") (VInt 3) VNull (VInt 0) (Some ["x"])
              one_task Hwf Hn) as (H1 & H2 & _).
  split; [exact H1 | exact H2].
Defined.

Lemma filter_twice {A : Type} (p : A -> bool) (l : list A) :
  List.filter p (List.filter p l) = List.filter p l.
Proof.
  apply filter_all. intros x Hx. now apply filter_In in Hx.
Qed.

(** X7: Deleting the same task a second time changes nothing more, and two
    deletions give the same store in either order. *)
Theorem delete_task_repeat_and_swap (i j : Z) (db : database) :
  delete_task i (delete_task i db) = delete_task i db /\
  delete_task i (delete_task j db) = delete_task j (delete_task i db).
Proof.
  unfold delete_task. cbn [tasks tags task_history seq_tasks seq_history
                             seq_tags].
  split.
  - now rewrite !filter_twice.
  - f_equal; apply filter_filter_swap.
Qed.

(** ** Tags belong to stored tasks *)

Lemma update_task_ids (task_id : Z) (kwargs : list (string * value))
    (db : database) :
  map t_id (tasks (update_task task_id kwargs db).2) = map t_id (tasks db).
Proof.
  destruct (tasks_update_task task_id kwargs db) as [-> | ->]; [reflexivity|].
  rewrite map_map. apply map_ext. intros r.
  destruct (t_id r =? task_id); [apply apply_updates_id | reflexivity].
Qed.

Lemma complete_task_ids (fromisoformat : string -> option datetime) (now : string)
    (task_id : Z) (actual_hours : value) (db : database) :
  map t_id (tasks (complete_task fromisoformat now task_id actual_hours db).2)
  = map t_id (tasks db).
Proof.
  rewrite tasks_complete_task, map_map. apply map_ext. intros r.
  now destruct (t_id r =? task_id).
Qed.

Lemma tags_owned_add_task (now : string)
    (title description category priority deadline est : value)
    (tag_list : option (list string)) (db : database) :
  tags_owned db ->
  tags_owned (add_task now title description category priority deadline est
                tag_list db).2.
Proof.
  intros H. unfold tags_owned in *.
  assert (title = VNull \/ title <> VNull) as [->|Hn]
    by (destruct title; auto; right; discriminate); [exact H|].
  rewrite add_task_ok by exact Hn. cbn [snd tasks tags].
  rewrite map_app. apply Forall_app. split.
  - eapply Forall_impl; [exact H|]. intros g Hg. apply in_or_app. now left.
  - eapply Forall_impl; [apply new_tag_rows_task_id|].
    intros g [-> _]. apply in_or_app. right. now left.
Qed.

Lemma tags_owned_import_loop (clock : nat -> string) (doc : list task_dict) :
  forall (k : nat) (db : database),
    tags_owned db -> tags_owned (import_loop clock k doc db).2.
Proof.
  induction doc as [|task rest IH]; intros k db H; simpl; [exact H|].
  destruct (_ !! "title") as [title|]; [|exact H].
  match goal with
  | |- context [add_task ?n ?t ?d ?c ?p ?dl ?e ?tg db] =>
      pose proof (tags_owned_add_task n t d c p dl e tg db H) as H1;
      destruct (add_task n t d c p dl e tg db) as [[i|e'] db']
  end; [now apply IH | exact H1].
Qed.

Lemma tags_owned_run (fromisoformat : string -> option datetime) (o : op)
    (db : database) :
  tags_owned db -> tags_owned (run fromisoformat o db).
Proof.
  intros H. destruct o; simpl.
  - now apply tags_owned_add_task.
  - unfold tags_owned. rewrite update_task_ids.
    rewrite (update_task_tables task_id kwargs db). exact H.
  - unfold tags_owned. rewrite complete_task_ids.
    rewrite (proj1 (complete_task_tables fromisoformat now task_id
                      actual_hours db)). exact H.
  - unfold tags_owned, delete_task in *. cbn [tasks tags].
    apply Forall_forall. intros g Hg.
    apply list_elem_of_In, filter_In in Hg as [Hg Hne].
    rewrite Forall_forall in H. apply list_elem_of_In, H in Hg.
    apply in_map_iff in Hg as (r & Hr & Hin).
    apply in_map_iff. exists r. split; [exact Hr|].
    apply filter_In. split; [exact Hin|]. now rewrite Hr.
  - destruct f; simpl; [now apply tags_owned_import_loop | exact H].
Qed.

Lemma reachable_tags_owned (fromisoformat : string -> option datetime)
    (db : database) :
  reachable fromisoformat db -> tags_owned db.
Proof.
  induction 1 as [|o db _ IH]; [constructor | now apply tags_owned_run].
Qed.

Section Owned.

Variable fromisoformat : string -> option datetime.

(** X9: No tag is orphaned: in every store the manager can reach, each tag row
    belongs to a stored task, and [get_tasks] lists it among the tags of
    that task. *)
Theorem every_tag_is_listed (db : database) (g : tag_row) :
  reachable fromisoformat db -> In g (tags db) ->
  exists d, In d (get_tasks None None db) /\
            dict_col d "id" = VInt (g_task_id g) /\
            In (g_tag g) (default [] (tags_entry d)).
Proof.
  intros Hre Hg. pose proof (reachable_tags_owned _ _ Hre) as Ho.
  unfold tags_owned in Ho. rewrite Forall_forall in Ho.
  pose proof (Ho g (proj2 (list_elem_of_In _ _) Hg)) as Hin.
  apply in_map_iff in Hin as (r & Hr & Hin).
  exists (row_dict db r). split; [|split].
  - apply get_tasks_all_In. eauto.
  - destruct (row_dict_cols db r) as (-> & _). now rewrite Hr.
  - cbn. unfold tags_of. apply in_map. apply filter_In.
    split; [exact Hg|]. rewrite Hr. apply Z.eqb_refl.
Qed.


End Owned.

Lemma every_tag_is_listed_witness :
  exists d, In d (get_tasks None None tagged_tasks) /\
            dict_col d "id" = VInt 1 /\
            In "garden" (default [] (tags_entry d)).
Proof.
  apply (every_tag_is_listed fromisoformat_basic tagged_tasks
           {| g_id := 1; g_task_id := 1; g_tag := "garden" |}).
  - apply reachable_run, reachable_run, reachable_init.
  - left. reflexivity.
Defined.


(** ** The listing of [get_tasks] *)

Lemma filter_clause_text (s : string) (v : value) :
  s <> "" -> filter_clause (Some s) v = true -> v = VText s.
Proof.
  intros Hs. unfold filter_clause.
  destruct (String.eqb_spec s ""); [contradiction|].
  destruct v as [|z|q|t]; try discriminate. cbn.
  destruct (String.compare t s) eqn:E; try discriminate.
  apply String.compare_eq_iff in E. now subst.
Qed.

Lemma get_tasks_as_filter (status category : option string) (db : database) :
  get_tasks status category db
  = List.filter (dict_selected status category) (get_tasks None None db).
Proof.
  unfold get_tasks, select_tasks. rewrite filter_map_comm.
  change (fun x => dict_selected status category (row_dict db x))
    with (fun r => filter_clause status (t_status r)
                   && filter_clause category (t_category r)).
  rewrite filter_order_by.
  assert (HT : List.filter
                 (fun r => filter_clause None (t_status r)
                           && filter_clause None (t_category r))
                 (tasks db) = tasks db) by now apply filter_all.
  now rewrite HT.
Qed.

(** X10: A filtered listing is the unfiltered listing with the dicts of another
    status or category left out, in the same order; and every dict it
    returns has the status, the category, that was asked for. *)
Theorem get_tasks_filtered (status category : option string) (db : database) :
  get_tasks status category db
  = List.filter (dict_selected status category) (get_tasks None None db) /\
  (forall s d, status = Some s -> s <> "" ->
     In d (get_tasks status category db) -> dict_col d "status" = VText s) /\
  (forall c d, category = Some c -> c <> "" ->
     In d (get_tasks status category db) -> dict_col d "category" = VText c).
Proof.
  pose proof (get_tasks_as_filter status category db) as H.
  split; [exact H|]. split.
  - intros s d -> Hs Hd. rewrite H in Hd.
    apply filter_In in Hd as [_ Hd]. unfold dict_selected in Hd.
    apply andb_true_iff in Hd as [Hd _]. now apply filter_clause_text.
  - intros c d -> Hc Hd. rewrite H in Hd.
    apply filter_In in Hd as [_ Hd]. unfold dict_selected in Hd.
    apply andb_true_iff in Hd as [_ Hd]. now apply filter_clause_text.
Qed.

(** X11: The unfiltered listing holds every stored task exactly once: it is a
    rearrangement of the dicts of the rows. *)
Theorem get_tasks_lists_every_task (db : database) :
  Permutation (get_tasks None None db) (map (row_dict db) (tasks db)) /\
  length (get_tasks None None db) = length (tasks db).
Proof.
  assert (H : Permutation (get_tasks None None db)
                (map (row_dict db) (tasks db))).
  { unfold get_tasks, select_tasks. apply Permutation_map.
    rewrite <- order_by_perm. now rewrite filter_all. }
  split; [exact H|].
  rewrite (Permutation_length H). apply length_map.
Qed.

Lemma strip_fixed_trimmed (s : string) : strip s = s -> trimmed s.
Proof.
  unfold strip, trimmed. intros H.
  apply (f_equal list_ascii_of_string) in H.
  rewrite list_ascii_of_string_of_list_ascii in H.
  rewrite <- H. unfold strip_list. split.
  - apply rstrip_no_lead, lstrip_no_lead.
  - rewrite rev_involutive. apply lstrip_no_lead.
Qed.

Section Listing.

Variable fromisoformat : string -> option datetime.

(** X12: In every store the manager can reach, the listing shows no id twice
    and no title that is [None], and no tag in it starts or ends with
    white space. *)
Theorem get_tasks_well_formed (status category : option string)
    (db : database) :
  reachable fromisoformat db ->
  NoDup (map (fun d => dict_col d "id") (get_tasks status category db)) /\
  Forall (fun d => dict_col d "title" <> VNull /\
                   Forall trimmed (default [] (tags_entry d)))
    (get_tasks status category db).
Proof.
  intros Hre. pose proof (reachable_wf _ _ Hre) as Hwf. split.
  - unfold get_tasks. rewrite map_map.
    change (fun x => dict_col (row_dict db x) "id")
      with (fun x => VInt (t_id x)).
    rewrite <- (map_map t_id VInt).
    assert (Hinj : Inj eq eq VInt) by (intros a b [=]; assumption).
    apply (NoDup_fmap_2 VInt).
    unfold select_tasks.
    rewrite <- (Permutation_map t_id (order_by_perm _)).
    pose proof (wf_unique db Hwf) as Hu. revert Hu.
    generalize (fun r => filter_clause status (t_status r)
                         && filter_clause category (t_category r)).
    intros p. induction (tasks db) as [|r l IH]; simpl; [constructor|].
    intros Hu. inversion Hu as [|? ? Hr Hl]; subst.
    destruct (p r); simpl; [|now apply IH].
    constructor; [|now apply IH].
    intros Hin. apply Hr. apply list_elem_of_In, in_map_iff in Hin.
    destruct Hin as (r' & <- & Hr'). apply filter_In in Hr'.
    apply list_elem_of_In, in_map. tauto.
  - apply Forall_forall. intros d Hd.
    apply list_elem_of_In in Hd. unfold get_tasks in Hd.
    apply in_map_iff in Hd as (r & <- & Hr).
    apply select_tasks_In in Hr as [Hr _]. split.
    + pose proof (wf_title db Hwf) as Ht. rewrite Forall_forall in Ht.
      apply (Ht r), list_elem_of_In, Hr.
    + cbn. unfold tags_of. apply Forall_forall. intros tag Htag.
      apply list_elem_of_In, in_map_iff in Htag as (g & <- & Hg).
      apply filter_In in Hg as [Hg _].
      pose proof (wf_tag_stripped db Hwf) as Hs. rewrite Forall_forall in Hs.
      apply strip_fixed_trimmed, (Hs g), list_elem_of_In, Hg.
Qed.

End Listing.

Lemma get_tasks_well_formed_witness :
  NoDup (map (fun d => dict_col d "id") (get_tasks None None tagged_tasks)) /\
  map (fun d => default [] (tags_entry d)) (get_tasks None None tagged_tasks)
  = [[]; ["garden"; "spring"]].
Proof.
  split; [|reflexivity].
  apply (get_tasks_well_formed fromisoformat_basic None None tagged_tasks).
  apply reachable_run, reachable_run, reachable_init.
Defined.

(** ** [complete_task] *)

Lemma history_add_task (now : string)
    (title description category priority deadline est : value)
    (tag_list : option (list string)) (db : database) :
  task_history (add_task now title description category priority deadline
                  est tag_list db).2 = task_history db.
Proof.
  assert (title = VNull \/ title <> VNull) as [->|Hn]
    by (destruct title; auto; right; discriminate); [reflexivity|].
  now rewrite add_task_ok by exact Hn.
Qed.

Lemma history_import_loop (clock : nat -> string) (doc : list task_dict) :
  forall (k : nat) (db : database),
    task_history (import_loop clock k doc db).2 = task_history db.
Proof.
  induction doc as [|task rest IH]; intros k db; simpl; [reflexivity|].
  destruct (_ !! "title") as [title|]; [|reflexivity].
  match goal with
  | |- context [add_task ?n ?t ?d ?c ?p ?dl ?e ?tg db] =>
      pose proof (history_add_task n t d c p dl e tg db) as H1;
      destruct (add_task n t d c p dl e tg db) as [[i|e'] db']
  end; simpl in *; [|exact H1].
  now rewrite IH.
Qed.

Section CompleteTask.

Variable fromisoformat : string -> option datetime.

(** X13: The history is append-only: no call changes or removes a history row,
    only [complete_task] adds one, and never more than one. *)
Theorem history_append_only (o : op) (db : database) :
  exists l,
    task_history (run fromisoformat o db) = task_history db ++ l /\
    (length l <= 1)%nat /\
    (l <> [] -> exists now task_id actual_hours,
                  o = CompleteTask now task_id actual_hours).
Proof.
  assert (Hnil : forall h : list history_row,
            h = task_history db ->
            exists l, h = task_history db ++ l /\ (length l <= 1)%nat /\
              (l <> [] -> exists now task_id actual_hours,
                            o = CompleteTask now task_id actual_hours)).
  { intros h ->. exists []. rewrite app_nil_r.
    split; [reflexivity|]. split; [simpl; lia|]. intros H. now contradiction H. }
  destruct o; simpl.
  - apply Hnil, history_add_task.
  - apply Hnil. now rewrite (update_task_tables task_id kwargs db).
  - destruct (complete_task_cases fromisoformat now task_id actual_hours db)
      as [[_ ->]|[(task & e & _ & _ & ->)|(task & hours & days & _ & _ & ->)]];
      [now apply Hnil | now apply Hnil |].
    eexists. split; [reflexivity|]. split; [reflexivity|]. eauto.
  - now apply Hnil.
  - apply Hnil.
    destruct f; simpl; [apply history_import_loop | reflexivity].
Qed.

(** X14: A deadline that [complete_task] cannot use.  For a text that is no
    ISO timestamp it raises [ValueError] when it parses it; for a timestamp
    with a UTC offset it raises [TypeError] when it subtracts the creation
    time, which has none.  Both happen after the row has been marked
    completed and before the history is written: the task is then
    completed without a history row. *)
Theorem complete_task_unparsed_deadline (now c d : string)
    (task_id created completed : Z) (actual_hours : value) (task : task_row)
    (db : database) :
  List.find (fun r => t_id r =? task_id) (tasks db) = Some task ->
  t_created_at task = VText c -> fromisoformat c = Some (Naive created) ->
  fromisoformat now = Some (Naive completed) ->
  t_deadline task = VText d -> d <> "" ->
  keeps "actual_hours" actual_hours = true ->
  let r := complete_task fromisoformat now task_id actual_hours db in
  (fromisoformat d = None -> r.1 = Raise ValueError) /\
  (forall dl, fromisoformat d = Some (Aware dl) -> r.1 = Raise TypeError) /\
  ((forall dl, fromisoformat d <> Some (Naive dl)) ->
   task_history r.2 = task_history db) /\
  Forall (fun r' => t_id r' = task_id ->
            t_status r' = VText "completed" /\
            t_completed_at r' = VText now /\
            t_actual_hours r' = actual_hours)
    (tasks r.2).
Proof.
  intros Hfind Hc Hcreated Hnow Hd Hne _. cbv zeta.
  assert (Ht : history_times fromisoformat now task =
               match fromisoformat d with
               | None => Raise ValueError
               | Some (Aware _) => Raise TypeError
               | Some (Naive dl) =>
                   Ok ((total_seconds (completed - created) / 3600)%Q,
                       Some (timedelta_days (dl - created)))
               end).
  { unfold history_times. rewrite Hc, Hd. cbn [parse_column truthy].
    rewrite Hcreated, Hnow.
    destruct (String.eqb_spec d ""); [contradiction|].
    now destruct (fromisoformat d) as [[dl|dl]|]. }
  unfold complete_task. rewrite Hfind, Ht.
  split; [|split; [|split]].
  - now intros ->.
  - now intros dl ->.
  - intros Hbad. destruct (fromisoformat d) as [[dl|dl]|]; [|reflexivity..].
    now contradiction (Hbad dl).
  - replace (tasks _)
      with (tasks (complete_task fromisoformat now task_id actual_hours db).2)
      by (unfold complete_task; now rewrite Hfind, Ht).
    rewrite tasks_complete_task. apply Forall_map, Forall_forall.
    intros r0 _. cbn beta. destruct (t_id r0 =? task_id) eqn:E; [now cbn|].
    apply Z.eqb_neq in E. intros; contradiction.
Qed.

(** X15: A deadline that is NULL or the empty text counts as no deadline:
    with parseable [created_at] and completion time the call succeeds and
    the one history row it appends has no [days_to_deadline]. *)
Theorem complete_task_falsy_deadline (now c : string)
    (task_id created completed : Z) (actual_hours : value) (task : task_row)
    (db : database) :
  List.find (fun r => t_id r =? task_id) (tasks db) = Some task ->
  t_created_at task = VText c -> fromisoformat c = Some (Naive created) ->
  fromisoformat now = Some (Naive completed) ->
  t_deadline task = VNull \/ t_deadline task = VText "" ->
  keeps "actual_hours" actual_hours = true ->
  let r := complete_task fromisoformat now task_id actual_hours db in
  r.1 = Ok tt /\
  exists h, task_history r.2 = task_history db ++ [h] /\
            h_task_id h = task_id /\ h_days_to_deadline h = None.
Proof.
  intros Hfind Hc Hcreated Hnow Hd _. cbv zeta.
  unfold complete_task. rewrite Hfind. unfold history_times.
  rewrite Hc. cbn [parse_column]. rewrite Hcreated, Hnow.
  destruct Hd as [-> | ->]; cbn; (split; [reflexivity|]);
    (eexists; split; [reflexivity|]; now cbn).
Qed.

(** X16: Completing a stored task moves it from the pending listing to the
    completed one, whatever the outcome of the call. *)
Theorem complete_task_changes_listing (now : string) (actual_hours : value)
    (r : task_row) (db : database) :
  r ∈ tasks db ->
  let db' := (complete_task fromisoformat now (t_id r) actual_hours db).2 in
  (exists d, In d (get_tasks (Some "completed") None db') /\
             dict_col d "id" = VInt (t_id r)) /\
  (forall d, In d (get_tasks (Some "pending") None db') ->
             dict_col d "id" <> VInt (t_id r)).
Proof.
  intros Hr. cbv zeta. split.
  - eexists. split.
    + unfold get_tasks. apply in_map. apply select_tasks_In.
      rewrite tasks_complete_task. split.
      * apply in_map, list_elem_of_In, Hr.
      * cbn beta. rewrite Z.eqb_refl. reflexivity.
    + cbn beta. rewrite Z.eqb_refl. reflexivity.
  - intros d Hd. unfold get_tasks in Hd.
    apply in_map_iff in Hd as (r' & <- & Hr').
    apply select_tasks_In in Hr' as [Hr' Hsel].
    rewrite tasks_complete_task in Hr'.
    apply in_map_iff in Hr' as (r0 & <- & _).
    match goal with
    | |- dict_col (row_dict ?db' ?x) _ <> _ =>
        destruct (row_dict_cols db' x) as (-> & _)
    end.
    destruct (t_id r0 =? t_id r) eqn:E.
    + cbn in Hsel. discriminate.
    + apply Z.eqb_neq in E. congruence.
Qed.

Lemma filter_map_shrinks {A : Type} (p : A -> bool) (f : A -> A)
    (l : list A) :
  (forall x, p (f x) = true -> p x = true) ->
  (length (List.filter p (map f l)) <= length (List.filter p l))%nat.
Proof.
  intros H. induction l as [|x l IH]; simpl; [reflexivity|].
  destruct (p (f x)) eqn:E.
  - rewrite (H x E). simpl. lia.
  - destruct (p x); simpl; lia.
Qed.

(** X17: A completed task is never overdue: after [complete_task] no row of the
    task is counted, and the overdue count of the statistics has not
    grown. *)
Theorem complete_task_not_overdue (today now : string) (task_id : Z)
    (actual_hours : value) (db : database) :
  let db' := (complete_task fromisoformat now task_id actual_hours db).2 in
  Forall (fun r => t_id r = task_id -> is_overdue today r = false)
    (tasks db') /\
  (overdue (get_statistics today db') <= overdue (get_statistics today db))%nat.
Proof.
  cbv zeta. cbn [get_statistics overdue]. rewrite tasks_complete_task. split.
  - apply Forall_map, Forall_forall. intros r _. cbn beta.
    destruct (t_id r =? task_id) eqn:E.
    + intros _. unfold is_overdue. cbn.
      now destruct (sql_lt (t_deadline r) (VText today)) as [[]|].
    + apply Z.eqb_neq in E. intros; contradiction.
  - apply filter_map_shrinks. intros r.
    destruct (t_id r =? task_id); [|auto].
    unfold is_overdue. cbn.
    now destruct (sql_lt (t_deadline r) (VText today)) as [[]|].
Qed.

End CompleteTask.

Lemma complete_task_unparsed_deadline_witness :
  let r := complete_task fromisoformat_basic "2024-01-02T00:00:00" 1 VNull
             vague_task in
  let r' := complete_task fromisoformat_basic "2024-01-02T00:00:00" 1 VNull
              offset_task in
  (r.1 = Raise ValueError /\ task_history r.2 = [] /\
   map t_status (tasks r.2) = [VText "completed"]) /\
  (r'.1 = Raise TypeError /\ task_history r'.2 = [] /\
   map t_status (tasks r'.2) = [VText "completed"]).
Proof.
  split.
  - destruct (complete_task_unparsed_deadline fromisoformat_basic
                "2024-01-02T00:00:00" "2024-01-01 00:00:00" "soon" 1
                1704067200000000 1704153600000000 VNull
                (new_task_row 1 "2024-01-01 00:00:00" (VText "call") (VText "")
                   (VText "home") (VInt 3) (VText "soon") (VReal 1))
                vague_task eq_refl eq_refl eq_refl eq_refl eq_refl)
      as (H1 & _ & H2 & _); [discriminate | reflexivity |].
    split; [exact (H1 eq_refl)|]. split; [|reflexivity].
    apply H2. discriminate.
  - destruct (complete_task_unparsed_deadline fromisoformat_basic
                "2024-01-02T00:00:00" "2024-01-01 00:00:00"
                "2024-01-11T00:00:00+02:00" 1
                1704067200000000 1704153600000000 VNull
                (new_task_row 1 "2024-01-01 00:00:00" (VText "call") (VText "")
                   (VText "home") (VInt 3) (VText "2024-01-11T00:00:00+02:00")
                   (VReal 1))
                offset_task eq_refl eq_refl eq_refl eq_refl eq_refl)
      as (_ & H1 & H2 & _); [discriminate | reflexivity |].
    split; [exact (H1 _ eq_refl)|]. split; [|reflexivity].
    apply H2. discriminate.
Defined.

Lemma complete_task_falsy_deadline_witness :
  let r := complete_task fromisoformat_basic "2024-01-02T00:00:00" 1 VNull
             blank_deadline_task in
  r.1 = Ok tt /\
  map h_days_to_deadline (task_history r.2) = [None].
Proof.
  destruct (complete_task_falsy_deadline fromisoformat_basic
              "2024-01-02T00:00:00" "2024-01-01 00:00:00" 1
              1704067200000000 1704153600000000 VNull
              (new_task_row 1 "2024-01-01 00:00:00" (VText "call") (VText "")
                 (VText "home") (VInt 3) (VText "") (VReal 1))
              blank_deadline_task eq_refl eq_refl eq_refl eq_refl
              (or_intror eq_refl) eq_refl)
    as (H1 & _).
  split; [exact H1 | reflexivity].
Defined.

Lemma complete_task_changes_listing_witness :
  let db' := (complete_task fromisoformat_basic "2024-01-02T00:00:00" 1
                VNull one_task).2 in
  (exists d, In d (get_tasks (Some "completed") None db') /\
             dict_col d "id" = VInt 1) /\
  get_tasks (Some "pending") None db' = [].
Proof.
  split; [|reflexivity].
  apply (complete_task_changes_listing fromisoformat_basic
           "2024-01-02T00:00:00" VNull
           (new_task_row 1 "2024-01-01 00:00:00" (VText "a") (VText "")
              (VText "general") (VInt 3) VNull (VInt 0)) one_task).
  apply list_elem_of_In. left. reflexivity.
Defined.

(** ** The breakdowns of [get_statistics] *)

Lemma same_group_sym (a b : value) : same_group a b = same_group b a.
Proof.
  unfold same_group. rewrite (value_compare_antisym a b).
  now destruct (value_compare b a).
Qed.

Lemma same_group_merge (v k k' : value) :
  same_group k k' = true -> same_group v k = same_group v k'.
Proof.
  unfold same_group. intros H.
  destruct (value_compare k k') eqn:E; try discriminate.
  now rewrite (value_compare_eq_r v k k' E).
Qed.

Lemma count_of_count_into (v k : value) (groups : list (value * nat)) :
  count_of v (count_into k groups)
  = ((if same_group v k then 1 else 0) + count_of v groups)%nat.
Proof.
  induction groups as [|[k' n] rest IH]; cbn [count_into count_of fold_right].
  - cbn. destruct (same_group v k); lia.
  - destruct (same_group k k') eqn:E; cbn [count_of fold_right fst snd].
    + rewrite (same_group_merge v k k' E).
      destruct (same_group v k'); lia.
    + fold (count_of v (count_into k rest)). rewrite IH.
      fold (count_of v rest).
      destruct (same_group v k), (same_group v k'); lia.
Qed.

Lemma total_count_count_into (k : value) (groups : list (value * nat)) :
  total_count (count_into k groups) = S (total_count groups).
Proof.
  induction groups as [|[k' n] rest IH]; cbn [count_into total_count fold_right];
    [reflexivity|].
  destruct (same_group k k'); cbn [total_count fold_right fst snd].
  - lia.
  - fold (total_count (count_into k rest)). rewrite IH.
    fold (total_count rest). lia.
Qed.

Lemma count_into_keys (P : value -> Prop) (k : value)
    (groups : list (value * nat)) :
  P k -> Forall (fun g => P g.1) groups ->
  Forall (fun g => P g.1) (count_into k groups).
Proof.
  intros Hk. induction 1 as [|[k' n] rest Hg Hrest IH]; cbn [count_into].
  - now repeat constructor.
  - destruct (same_group k k'); constructor;
      [exact Hg | exact Hrest | exact Hg | exact IH].
Qed.

Lemma count_into_distinct (k : value) (groups : list (value * nat)) :
  ForallOrdPairs (fun a b => same_group a.1 b.1 = false) groups ->
  ForallOrdPairs (fun a b => same_group a.1 b.1 = false)
    (count_into k groups).
Proof.
  induction 1 as [|[k' n] rest Hg Hrest IH]; cbn [count_into].
  - constructor; constructor.
  - destruct (same_group k k') eqn:E.
    + constructor; [exact Hg | exact Hrest].
    + constructor; [|exact IH].
      apply (count_into_keys (fun x => same_group k' x = false)).
      * now rewrite same_group_sym.
      * exact Hg.
Qed.

Lemma group_count_facts (col : task_row -> value) (rows : list task_row) :
  forall groups,
    ForallOrdPairs (fun a b => same_group a.1 b.1 = false) groups ->
    let result := fold_left (fun gs r => count_into (col r) gs) rows groups in
    ForallOrdPairs (fun a b => same_group a.1 b.1 = false) result /\
    total_count result = (length rows + total_count groups)%nat /\
    forall v, count_of v result
              = (length (List.filter (fun r => same_group v (col r)) rows)
                 + count_of v groups)%nat.
Proof.
  induction rows as [|r rows IH]; intros groups Hd; cbn [fold_left].
  - cbn. auto.
  - destruct (IH (count_into (col r) groups) (count_into_distinct _ _ Hd))
      as (H1 & H2 & H3).
    cbv zeta in *. split; [exact H1|]. split.
    + rewrite H2, total_count_count_into. cbn [length]. lia.
    + intros v. rewrite H3, count_of_count_into. cbn [List.filter].
      destruct (same_group v (col r)); cbn [length]; lia.
Qed.

(** X18: The status breakdown has one entry per status that occurs; its counts
    add up to the number of tasks, and the count under a status is the
    number of tasks with that status.  The same holds for the categories. *)
Theorem get_statistics_breakdowns (today : string) (db : database) :
  let st := get_statistics today db in
  ForallOrdPairs (fun a b => same_group a.1 b.1 = false) (by_status st) /\
  ForallOrdPairs (fun a b => same_group a.1 b.1 = false) (by_category st) /\
  total_count (by_status st) = length (tasks db) /\
  total_count (by_category st) = length (tasks db) /\
  (forall s : string,
     count_of (VText s) (by_status st)
     = length (List.filter
                 (fun r => sql_true (sql_eq (t_status r) (VText s)))
                 (tasks db))) /\
  (forall c : string,
     count_of (VText c) (by_category st)
     = length (List.filter
                 (fun r => sql_true (sql_eq (t_category r) (VText c)))
                 (tasks db))).
Proof.
  cbv zeta. cbn [get_statistics by_status by_category]. unfold group_count.
  destruct (group_count_facts t_status (tasks db) [] (FOP_nil _))
    as (S1 & S2 & S3).
  destruct (group_count_facts t_category (tasks db) [] (FOP_nil _))
    as (C1 & C2 & C3).
  cbv zeta in *. cbn [total_count count_of fold_right] in *.
  assert (E : forall (s : string) (v : value),
            same_group (VText s) v = sql_true (sql_eq v (VText s))).
  { intros s v. rewrite same_group_sym. destruct v; cbn; try reflexivity.
    unfold same_group. cbn. now destruct (String.compare _ _). }
  repeat split; try assumption; try lia.
  - intros s. rewrite S3, Nat.add_0_r. f_equal.
    apply List.filter_ext. intros r. apply E.
  - intros c. rewrite C3, Nat.add_0_r. f_equal.
    apply List.filter_ext. intros r. apply E.
Qed.

(** ** The suggested priority *)

Lemma Qgtb_mono (a b bound : Q) :
  (a <= b)%Q -> Qgtb a bound = true -> Qgtb b bound = true.
Proof.
  unfold Qgtb. intros Hab Ha.
  apply negb_true_iff in Ha. apply negb_true_iff.
  apply not_true_is_false. intros Hb. apply Qle_bool_iff in Hb.
  assert (Hle : Qle_bool a bound = true)
    by (apply Qle_bool_iff; eapply Qle_trans; eassumption).
  congruence.
Qed.

(** X19: Priority 5 is never suggested: whenever [suggest_priority] returns,
    the result is 1, 2, 3 or 4. *)
Theorem suggest_priority_never_5 (category : string) (estimated_hours : Q)
    (deadline_days : option Z) (db : database) (p : Z) :
  suggest_priority category estimated_hours deadline_days db = Ok p ->
  1 <= p <= 4.
Proof.
  unfold suggest_priority, _heuristic_priority.
  destruct (history_of category db) as [|h rest].
  - intros [= <-].
    repeat match goal with |- context [if ?b then _ else _] => destruct b end;
      lia.
  - destruct (score_loop _ _ _ _) as [[c u]|e]; [|discriminate].
    intros [= <-].
    repeat match goal with |- context [if ?b then _ else _] => destruct b end;
      lia.
Qed.

Lemma suggest_priority_never_5_witness :
  suggest_priority "work" 30 (Some 2) quick_task = Ok 1 /\ 1 <= 1 <= 4.
Proof.
  split; [reflexivity|].
  exact (suggest_priority_never_5 "work" 30 (Some 2) quick_task 1 eq_refl).
Defined.

(** X20: A larger estimate never makes the suggestion less urgent: for the same
    category, deadline and store, more hours give a priority number that
    is at most the one fewer hours give. *)
Theorem suggest_priority_more_hours (category : string) (e1 e2 : Q)
    (deadline_days : option Z) (db : database) (p1 p2 : Z) :
  (e1 <= e2)%Q ->
  suggest_priority category e1 deadline_days db = Ok p1 ->
  suggest_priority category e2 deadline_days db = Ok p2 ->
  p2 <= p1.
Proof.
  intros He. unfold suggest_priority, _heuristic_priority.
  pose proof (Qgtb_mono e1 e2 5 He) as H5.
  pose proof (Qgtb_mono e1 e2 10 He) as H10.
  pose proof (Qgtb_mono e1 e2 15 He) as H15.
  pose proof (Qgtb_mono e1 e2 20 He) as H20.
  destruct (history_of category db) as [|h rest].
  - intros [= <-] [= <-].
    destruct (within deadline_days 3); [lia|].
    destruct (within deadline_days 7); [lia|].
    destruct (Qgtb e1 15), (Qgtb e2 15), (Qgtb e1 5), (Qgtb e2 5);
      try lia; try (now specialize (H15 eq_refl));
      now specialize (H5 eq_refl).
  - destruct (score_loop e1 _ _ _) as [[c1 u1]|x1]; [|discriminate].
    destruct (score_loop e2 _ _ _) as [[c2 u2]|x2]; [|discriminate].
    intros [= <-] [= <-].
    destruct (within deadline_days 7); [lia|].
    destruct (within deadline_days 14); [lia|].
    destruct (Qgtb e1 20), (Qgtb e2 20), (Qgtb e1 10), (Qgtb e2 10);
      try lia; try (now specialize (H20 eq_refl));
      now specialize (H10 eq_refl).
Qed.

Lemma suggest_priority_more_hours_witness :
  suggest_priority "work" 6 None quick_task = Ok 4 /\
  suggest_priority "work" 12 None quick_task = Ok 3 /\ 3 <= 4.
Proof.
  split; [reflexivity|]. split; [reflexivity|].
  apply (suggest_priority_more_hours "work" 6 12 None quick_task 4 3);
    [discriminate | reflexivity | reflexivity].
Defined.

(** ** [import_tasks] *)

Lemma import_loop_app (clock : nat -> string) (a b : list task_dict) :
  forall (k : nat) (db : database),
    import_loop clock k (a ++ b) db =
    match import_loop clock k a db with
    | (Ok _, db1) => import_loop clock (k + length a) b db1
    | (Raise e, db1) => (Raise e, db1)
    end.
Proof.
  induction a as [|task a IH]; intros k db; cbn [app import_loop length].
  - now rewrite Nat.add_0_r.
  - destruct (_ !! "title") as [title|]; [|reflexivity].
    match goal with
    | |- context [add_task ?n ?t ?d ?c ?p ?dl ?e ?tg db] =>
        destruct (add_task n t d c p dl e tg db) as [[i|e'] db']
    end; [|reflexivity].
    rewrite IH. now rewrite Nat.add_succ_r.
Qed.

Lemma import_loop_shift (clock : nat -> string) (k : nat)
    (doc : list task_dict) :
  forall (m : nat) (db : database),
    import_loop clock (k + m) doc db
    = import_loop (fun j => clock (k + j)%nat) m doc db.
Proof.
  induction doc as [|task doc IH]; intros m db; cbn [import_loop];
    [reflexivity|].
  destruct (_ !! "title") as [title|]; [|reflexivity].
  match goal with
  | |- context [add_task ?n ?t ?d ?c ?p ?dl ?e ?tg db] =>
      destruct (add_task n t d c p dl e tg db) as [[i|e'] db']
  end; [|reflexivity].
  rewrite <- IH. now rewrite Nat.add_succ_r.
Qed.

(** X21: Importing a file is importing its first tasks and then, if that went
    well, the rest into the store so obtained, the clock running on; an
    error stops the import and keeps the tasks imported before it. *)
Theorem import_tasks_in_parts (clock : nat -> string) (a b : list task_dict)
    (db : database) :
  import_tasks clock (JsonFile (a ++ b)) db =
  match import_tasks clock (JsonFile a) db with
  | (Ok _, db1) =>
      import_tasks (fun j => clock (length a + j)%nat) (JsonFile b) db1
  | (Raise e, db1) => (Raise e, db1)
  end.
Proof.
  cbn [import_tasks]. rewrite import_loop_app. cbn [Nat.add].
  destruct (import_loop clock 0 a db) as [[u|e] db1]; [|reflexivity].
  rewrite <- (import_loop_shift clock (length a) b 0 db1).
  now rewrite Nat.add_0_r.
Qed.

(** X22: An object without [title] stops the import with [KeyError]: the tasks
    before it in the file have been imported and stay, the tasks after it
    are not looked at. *)
Theorem import_tasks_missing_title (clock : nat -> string)
    (good rest : list task_dict) (bad : task_dict) (db db1 : database) :
  entries bad !! "title" = None ->
  import_tasks clock (JsonFile good) db = (Ok tt, db1) ->
  import_tasks clock (JsonFile (good ++ bad :: rest)) db
  = (Raise (KeyError "title"), db1).
Proof.
  intros Hbad Hgood. cbn [import_tasks] in *.
  rewrite import_loop_app, Hgood. cbn [import_loop].
  rewrite !lookup_delete_ne by discriminate. now rewrite Hbad.
Qed.

Lemma import_tasks_missing_title_witness :
  let doc := get_tasks None None one_task in
  import_tasks (fun _ => "2024-06-01 00:00:00")
    (JsonFile (doc ++ [untitled] ++ doc)) one_task
  = (Raise (KeyError "title"),
     (import_tasks (fun _ => "2024-06-01 00:00:00") (JsonFile doc)
        one_task).2).
Proof.
  apply (import_tasks_missing_title (fun _ => "2024-06-01 00:00:00")
           (get_tasks None None one_task) (get_tasks None None one_task)
           untitled one_task);
    reflexivity.
Defined.

(** X23: Whatever the file holds, [import_tasks] only appends task rows, each
    pending and without a completion time (the status and the completion
    of the original are not taken over), and writes no history. *)
Theorem import_tasks_appends_pending (clock : nat -> string) (f : file)
    (db : database) :
  exists l,
    tasks (import_tasks clock f db).2 = tasks db ++ l /\
    Forall (fun r => t_status r = VText "pending" /\ t_completed_at r = VNull)
      l /\
    task_history (import_tasks clock f db).2 = task_history db.
Proof.
  destruct (tasks_import_tasks clock f db) as (l & H1 & H2).
  exists l. split; [exact H1|]. split; [exact H2|].
  destruct f; cbn [import_tasks]; [apply history_import_loop | reflexivity].
Qed.

(** ** [search_tasks] *)

Lemma starts_with_empty (hay : string) : starts_with "" hay = true.
Proof. now destruct hay. Qed.

Lemma contains_empty (hay : string) : contains "" hay = true.
Proof. destruct hay; cbn; now rewrite ?starts_with_empty. Qed.

Section SearchFacts.

Variable lower : string -> string.

Lemma matching_tasks_filter (keyword : string) (all_tasks l : list task_dict) :
  matching_tasks lower keyword all_tasks = Some l ->
  l = List.filter
        (fun d => match task_matches lower keyword d with
                  | Some true => true
                  | _ => false
                  end)
        all_tasks.
Proof.
  revert l. induction all_tasks as [|d rest IH]; intros l; cbn.
  - now intros [= <-].
  - destruct (task_matches lower keyword d) as [b|]; [|discriminate].
    destruct (matching_tasks lower keyword rest) as [l'|]; [|discriminate].
    intros [= <-]. rewrite (IH l' eq_refl). now destruct b.
Qed.

(** X24: A blank line at the search prompt lists every task: the empty keyword
    is found in every title, so the other fields are not even looked at. *)
Theorem search_tasks_blank (input : string) (db : database) :
  lower "" = "" -> strip input = "" ->
  Forall (fun r => exists s, t_title r = VText s) (tasks db) ->
  search_tasks lower input db = Some (get_tasks None None db).
Proof.
  intros Hl Hs Ht. unfold search_tasks. rewrite Hs, Hl.
  assert (H : Forall (fun d => exists s, dict_col d "title" = VText s)
                (get_tasks None None db)).
  { apply Forall_forall. intros d Hd.
    apply list_elem_of_In, get_tasks_all_In in Hd as (r & Hr & ->).
    rewrite Forall_forall in Ht. apply (Ht r), list_elem_of_In, Hr. }
  induction H as [|d rest [s Hd] _ IH]; cbn; [reflexivity|].
  unfold task_matches. rewrite Hd. cbn. rewrite contains_empty. cbn.
  now rewrite IH.
Qed.

(** X25: What a search returns is part of the listing, in the order of the
    listing, and holds every task whose title, lowered, contains the
    keyword. *)
Theorem search_tasks_result (input : string) (db : database)
    (l : list task_dict) :
  search_tasks lower input db = Some l ->
  l `sublist_of` get_tasks None None db /\
  forall d s, In d (get_tasks None None db) ->
              dict_col d "title" = VText s ->
              contains (lower (strip input)) (lower s) = true ->
              In d l.
Proof.
  unfold search_tasks. intros H. apply matching_tasks_filter in H.
  subst l. split.
  - induction (get_tasks None None db) as [|d rest IH]; cbn; [constructor|].
    destruct (task_matches lower _ d) as [[]|];
      [now constructor | now apply sublist_cons | now apply sublist_cons].
  - intros d s Hd Ht Hc. apply filter_In. split; [exact Hd|].
    unfold task_matches. rewrite Ht. cbn. now rewrite Hc.
Qed.

End SearchFacts.

Lemma search_tasks_blank_witness :
  search_tasks lower_ascii "   " tagged_tasks
  = Some (get_tasks None None tagged_tasks).
Proof.
  apply (search_tasks_blank lower_ascii "   " tagged_tasks);
    [reflexivity | reflexivity |].
  repeat constructor; eexists; reflexivity.
Defined.

Lemma search_tasks_result_witness :
  exists l, search_tasks lower_ascii " GARDEN " tagged_tasks = Some l /\
            l `sublist_of` get_tasks None None tagged_tasks /\
            map (fun d => dict_col d "id") l = [VInt 1].
Proof.
  eexists. split; [reflexivity|]. split; [|reflexivity].
  exact (proj1 (search_tasks_result lower_ascii " GARDEN " tagged_tasks _
                  eq_refl)).
Defined.

(** ** [view_tasks] *)

Section ViewFacts.

Variable lower : string -> string.

(** X26: At the prompt of [view_tasks], [all] (in any case) or an empty line
    lists every task; any other word lists the tasks whose status is that
    word, lowered: the listing with the other tasks left out. *)
Theorem view_tasks_lists (input : string) (db : database) :
  let word := lower (strip input) in
  (word = "all" \/ word = "" ->
   view_tasks lower input db = get_tasks None None db) /\
  (word <> "all" -> word <> "" ->
   view_tasks lower input db
   = List.filter
       (fun d => sql_true (sql_eq (dict_col d "status") (VText word)))
       (get_tasks None None db)).
Proof.
  cbv zeta. unfold view_tasks. split.
  - intros [-> | ->]; [reflexivity|].
    cbn. rewrite (get_tasks_as_filter (Some "") None db).
    now apply filter_all.
  - intros Hall Hempty.
    destruct (String.eqb_spec (lower (strip input)) "all"); [contradiction|].
    rewrite get_tasks_as_filter. apply List.filter_ext. intros d.
    unfold dict_selected, filter_clause.
    destruct (String.eqb_spec (lower (strip input)) ""); [contradiction|].
    apply andb_true_r.
Qed.

End ViewFacts.

Lemma view_tasks_lists_witness :
  view_tasks lower_ascii " ALL " tagged_tasks
  = get_tasks None None tagged_tasks /\
  view_tasks lower_ascii "Completed" tagged_tasks = [].
Proof.
  destruct (view_tasks_lists lower_ascii " ALL " tagged_tasks) as [H _].
  split; [apply H; left; reflexivity | reflexivity].
Defined.
